(** * converter.py: plain text to CWB vertical format

    A shallow embedding of [converter.py] and the properties of its
    segmenter, its header printer, its annotation emitter and its
    entry point.

    Conventions of the embedding.
    - A Python [str] is a [string]; one [ascii] stands for one character
      (code points 0..255).
    - [print] appends one entry to the list [stdout] (the entry is the
      printed text, the newline that [print] adds is implicit).
    - A Python exception is a value of [exn]; a call that may raise
      returns a [Result].
    - spaCy's pipeline [NLP] is the external collaborator.  It is a
      process-wide object, so it is modelled as a function that reads and
      updates a state of its own. *)

From Stdlib Require Import String Ascii List Arith Bool Lia.
Import ListNotations.
Open Scope string_scope.

(* ================================================================= *)
(** ** Characters and strings of the source *)

Module Py.

(** The characters the source writes as escapes or inside quotes. *)
Definition nl_char : ascii := ascii_of_nat 10.
Definition tab_char : ascii := ascii_of_nat 9.
Definition dq_char : ascii := ascii_of_nat 34.

Definition nl : string := String nl_char "".
Definition tab : string := String tab_char "".
Definition dq : string := String dq_char "".

(** [str.isspace] on one character, for code points below 256:
    TAB, LF, VT, FF, CR, FS, GS, RS, US, SPACE, NEL and NBSP. *)
Definition is_space (c : ascii) : bool :=
  let n := nat_of_ascii c in
  (((9 <=? n) && (n <=? 13)) || ((28 <=? n) && (n <=? 32))
   || (n =? 133) || (n =? 160))%nat.

(** [s.rstrip()]: drop the trailing run of whitespace. *)
Fixpoint rstrip (s : string) : string :=
  match s with
  | EmptyString => EmptyString
  | String c s' =>
      match rstrip s' with
      | EmptyString => if is_space c then EmptyString else String c EmptyString
      | r => String c r
      end
  end.

(** [s[0:n]] for [n >= 0]. *)
Fixpoint take (n : nat) (s : string) : string :=
  match n, s with
  | S n', String c s' => String c (take n' s')
  | _, _ => EmptyString
  end.

(** [s[0:-k]]: a negative stop counts from the end and is clamped at 0,
    which is what the truncated subtraction does. *)
Definition drop_end (k : nat) (s : string) : string :=
  take (String.length s - k)%nat s.

(** [s.split(sep)] for a separator of one character. *)
Fixpoint split (sep : ascii) (s : string) : list string :=
  match s with
  | EmptyString => [EmptyString]
  | String c s' =>
      if Ascii.eqb c sep then EmptyString :: split sep s'
      else match split sep s' with
           | [] => [String c EmptyString]
           | p :: ps => String c p :: ps
           end
  end.

(** [sep.join(l)]. *)
Definition join (sep : string) (l : list string) : string :=
  String.concat sep l.

(** [s.replace(old, new)] for [old] of one character, as at both call
    sites of the source. *)
Fixpoint replace (old : ascii) (new : string) (s : string) : string :=
  match s with
  | EmptyString => EmptyString
  | String c s' =>
      if Ascii.eqb c old then new ++ replace old new s'
      else String c (replace old new s')
  end.

(** [l[-1]] of a list of strings that is known not to be empty. *)
Definition last_item (l : list string) : string := List.last l EmptyString.

(** [f.readlines()] on the decoded text of a file: the text is cut after
    every newline and the newline is kept on its line. *)
Fixpoint readlines_of (s : string) : list string :=
  match s with
  | EmptyString => []
  | String c s' =>
      if Ascii.eqb c nl_char then String c EmptyString :: readlines_of s'
      else match readlines_of s' with
           | [] => [String c EmptyString]
           | l :: ls => String c l :: ls
           end
  end.

(** How often a character occurs in a string. *)
Fixpoint count_char (c : ascii) (s : string) : nat :=
  match s with
  | EmptyString => 0
  | String d s' => ((if Ascii.eqb d c then 1 else 0) + count_char c s')%nat
  end.

(** The last character of a string, if any. *)
Fixpoint last_char (s : string) : option ascii :=
  match s with
  | EmptyString => None
  | String c EmptyString => Some c
  | String _ s' => last_char s'
  end.

Definition ends_with_space (s : string) : bool :=
  match last_char s with
  | Some c => Ascii.eqb c " "%char
  | None => false
  end.

End Py.

Import Py.

(* ================================================================= *)
(** ** Exceptions and results *)

(** The exceptions that the program can meet. *)
Inductive exn : Type :=
| UnicodeDecodeError
| UnboundLocalError (name : string)
| IndexError
| SystemExit (code : nat)
| OSError.

Definition is_UnicodeDecodeError (e : exn) : bool :=
  match e with UnicodeDecodeError => true | _ => false end.

Inductive Result (A : Type) : Type :=
| Ok (a : A)
| Raise (e : exn).

Arguments Ok {A} a.
Arguments Raise {A} e.

(** [l[i]] for [i >= 0]. *)
Definition item (l : list string) (i : nat) : Result string :=
  match nth_error l i with
  | Some x => Ok x
  | None => Raise IndexError
  end.

(* ================================================================= *)
(** ** The segmenter: [create_document] and [create_document_list] *)

Record Document : Type := mkDocument { header : string; body : string }.

(** [Document(body=' '.join(lines_of_document[1:]),
              header=lines_of_document[0])]: the body is evaluated first
    (a slice never raises), then the header. *)
Definition create_document (lines_of_document : list string) : Result Document :=
  let b := join " " (tl lines_of_document) in
  match item lines_of_document 0 with
  | Ok h => Ok {| header := h; body := b |}
  | Raise e => Raise e
  end.

(** The test of the [if] inside the loop: [line == '\n' or
    line == lines_of_file[-1]], a comparison of values. *)
Definition is_boundary (lastline line : string) : bool :=
  String.eqb line nl || String.eqb line lastline.

(** The [for] loop of [create_document_list]; [document] and [documents]
    are the two local lists, [lastline] is the value of
    [lines_of_file[-1]], which the loop reads at every line. *)
Fixpoint segment_loop (lastline : string) (document : list string)
    (documents : list Document) (rest : list string) : Result (list Document) :=
  match rest with
  | [] => Ok documents
  | line :: rest' =>
      let document := (document ++ [rstrip line])%list in
      if is_boundary lastline line then
        match create_document document with
        | Ok d => segment_loop lastline [] (documents ++ [d])%list rest'
        | Raise e => Raise e
        end
      else segment_loop lastline document documents rest'
  end.

Definition create_document_list (lines_of_file : list string)
  : Result (list Document) :=
  segment_loop (last_item lines_of_file) [] [] lines_of_file.

(** The boundary decisions of the loop, one per line. *)
Definition boundary_flags (lines_of_file : list string) : list bool :=
  map (is_boundary (last_item lines_of_file)) lines_of_file.

(** The boundary rule in the words of the specification: a line is a
    boundary when it is the blank line or when it stands at the last
    position of the file. *)
Fixpoint spec_boundary_flags (lines_of_file : list string) : list bool :=
  match lines_of_file with
  | [] => []
  | [l] => [true]
  | l :: rest => String.eqb l nl :: spec_boundary_flags rest
  end.

Definition count_true (l : list bool) : nat := length (filter (fun b => b) l).

(* ================================================================= *)
(** ** The NLP collaborator and the files *)

Record Token : Type := mkToken { text : string; pos_ : string; lemma_ : string }.

(** A sentence of a [Doc]: its text and the token objects that the pass
    which found the sentence gave it. *)
Record Span : Type := mkSpan { sent_text : string; sent_tokens : list Token }.

(** What [NLP(text)] returns: iterating it gives [tokens], [.sents] gives
    the sentences. *)
Record Doc : Type := mkDoc { tokens : list Token; sents : list Span }.

Inductive Encoding : Type := utf_8 | cp1252.

Record Handle : Type := mkHandle { hid : nat; henc : Encoding }.

(** The handle of the first [open] of a run, and that of the second. *)
Definition h0 : Handle := mkHandle 0 utf_8.
Definition h1 : Handle := mkHandle 1 cp1252.

(** An input file, as far as the program can tell: what reading all of
    it gives under each encoding, [None] when the bytes do not decode. *)
Record File : Type := mkFile { as_utf_8 : option string; as_cp1252 : option string }.

Definition decoded (f : File) (enc : Encoding) : option string :=
  match enc with utf_8 => as_utf_8 f | cp1252 => as_cp1252 f end.

(** What the file system holds at the path given to the program: a file
    that can be opened, or nothing that can be. A file stands for itself
    where a target is expected. *)
Inductive Target : Type :=
| at_path (f : File)
| nothing_at_path.

Coercion at_path : File >-> Target.

(** What is recorded, in order, about the use of resources. [EvClose] is
    a call of [close] by the program; [EvRelease] is the closing of a
    file object by the interpreter when its last reference is dropped
    (CPython finalises such an object at once). *)
Inductive Event : Type :=
| EvOpen (h : Handle)
| EvClose (h : Handle)
| EvRelease (h : Handle)
| EvSegment
| EvNLP (input : string).

Definition is_open (e : Event) : bool :=
  match e with EvOpen _ => true | _ => false end.

Definition is_nlp_event (e : Event) : bool :=
  match e with EvNLP _ => true | _ => false end.

(** The handles opened and not closed, in a log. *)
Fixpoint open_handles (log : list Event) (acc : list nat) : list nat :=
  match log with
  | [] => acc
  | EvOpen h :: r => open_handles r (acc ++ [hid h])%list
  | EvClose h :: r => open_handles r (filter (fun n => negb (n =? hid h)%nat) acc)
  | EvRelease h :: r => open_handles r (filter (fun n => negb (n =? hid h)%nat) acc)
  | _ :: r => open_handles r acc
  end.

(** The handles still open at the first segmentation or annotation event
    of a log ([None] when the log has no such event). *)
Fixpoint open_at_work (log : list Event) (acc : list nat) : option (list nat) :=
  match log with
  | [] => None
  | EvOpen h :: r => open_at_work r (acc ++ [hid h])%list
  | EvClose h :: r => open_at_work r (filter (fun n => negb (n =? hid h)%nat) acc)
  | EvRelease h :: r => open_at_work r (filter (fun n => negb (n =? hid h)%nat) acc)
  | EvSegment :: _ => Some acc
  | EvNLP _ :: _ => Some acc
  end.

(** One printed token: ['{word}\t{pos}\t{lemma}'.format(...)]. *)
Definition token_line (t : Token) : string :=
  text t ++ tab ++ pos_ t ++ tab ++ lemma_ t.

(** One sentence as it is printed under [tag]. *)
Definition render (tag : string) (toks : list Token) : list string :=
  (tag :: map token_line toks ++ [replace "<" "</" tag])%list.

(** The [<text ...>] line for given attribute values. *)
Definition text_tag (id date year month day : string) : string :=
  "<text " ++ ("id=" ++ dq ++ id ++ dq) ++ " " ++ ("date=" ++ dq ++ date ++ dq)
  ++ " " ++ ("year=" ++ dq ++ year ++ dq) ++ " "
  ++ ("month=" ++ dq ++ month ++ dq) ++ " " ++ ("day=" ++ dq ++ day ++ dq) ++ ">".

(* ================================================================= *)
(** ** The program *)

Section Program.

(** The pipeline: its state and what a call [NLP(text)] returns from a
    state, with the next state. *)
Variable PS : Type.
Variable NLP : PS -> string -> Doc * PS.

(** The state of a run: the two output streams, the log, the state of
    the pipeline and the local variables of [main] ([None]: not bound). *)
Record State : Type := mkState {
  stdout : list string;
  stderr : list string;
  log : list Event;
  nlp_state : PS;
  input_doc : option Handle;
  lines : option (list string);
  documents : option (list Document)
}.

Definition M (A : Type) : Type := State -> Result A * State.

Definition ret {A} (a : A) : M A := fun st => (Ok a, st).

Definition raise {A} (e : exn) : M A := fun st => (Raise e, st).

Definition bind {A B} (c : M A) (k : A -> M B) : M B :=
  fun st =>
    match c st with
    | (Ok a, st') => k a st'
    | (Raise e, st') => (Raise e, st')
    end.

Definition lift {A} (r : Result A) : M A := fun st => (r, st).

Notation "x <- c ;; k" := (bind c (fun x => k))
  (at level 61, c at next level, right associativity).
Notation "c ;; k" := (bind c (fun _ => k))
  (at level 61, right associativity).

(** [for x in l: body]. *)
Fixpoint for_each {A} (l : list A) (body : A -> M unit) : M unit :=
  match l with
  | [] => ret tt
  | x :: r => body x ;; for_each r body
  end.

(** The first [except] clause that matches, if any. *)
Fixpoint first_match (e : exn) (handlers : list ((exn -> bool) * M unit))
  : option (M unit) :=
  match handlers with
  | [] => None
  | (matches, h) :: r => if matches e then Some h else first_match e r
  end.

(** [try: body  except ...: ...  finally: fin].  An exception of [body]
    goes to the first clause that matches it; an exception of that
    clause is not offered to the other clauses; [fin] runs in every
    case, and an exception of [fin] replaces the pending one. *)
Definition try_except_finally (body : M unit)
    (handlers : list ((exn -> bool) * M unit)) (fin : M unit) : M unit :=
  fun st =>
    let '(r1, st1) := body st in
    let '(r2, st2) :=
      match r1 with
      | Ok _ => (r1, st1)
      | Raise e =>
          match first_match e handlers with
          | Some h => h st1
          | None => (r1, st1)
          end
      end in
    let '(r3, st3) := fin st2 in
    match r3 with
    | Ok _ => (r2, st3)
    | Raise e => (Raise e, st3)
    end.

(** *** Primitive effects *)

Definition emit (st : State) (out : list string) : State :=
  mkState (stdout st ++ out)%list (stderr st) (log st) (nlp_state st)
          (input_doc st) (lines st) (documents st).

Definition emit_err (st : State) (out : list string) : State :=
  mkState (stdout st) (stderr st ++ out)%list (log st) (nlp_state st)
          (input_doc st) (lines st) (documents st).

Definition record (st : State) (evs : list Event) : State :=
  mkState (stdout st) (stderr st) (log st ++ evs)%list (nlp_state st)
          (input_doc st) (lines st) (documents st).

Definition with_nlp_state (st : State) (ps : PS) : State :=
  mkState (stdout st) (stderr st) (log st) ps
          (input_doc st) (lines st) (documents st).

(** The state after more output, more events and a step of the
    pipeline. *)
Definition advance (st : State) (out : list string) (evs : list Event)
    (ps : PS) : State :=
  mkState (stdout st ++ out)%list (stderr st) (log st ++ evs)%list ps
          (input_doc st) (lines st) (documents st).

(** [print(s)]. *)
Definition print (s : string) : M unit := fun st => (Ok tt, emit st [s]).

(** [print(s, file=sys.stderr)]. *)
Definition eprint (s : string) : M unit := fun st => (Ok tt, emit_err st [s]).

(** [sys.exit(code)]. *)
Definition sys_exit (code : nat) : M unit := raise (SystemExit code).

(** [NLP(input)]. *)
Definition call_NLP (input : string) : M Doc :=
  fun st =>
    let '(d, ps) := NLP (nlp_state st) input in
    (Ok d, with_nlp_state (record st [EvNLP input]) ps).

(** [open(filepath, encoding=enc)]: a new handle, or [OSError] when
    nothing can be opened at the path. *)
Definition open_file (target : Target) (enc : Encoding) : M Handle :=
  fun st =>
    match target with
    | at_path _ =>
        let h := mkHandle (length (filter is_open (log st))) enc in
        (Ok h, record st [EvOpen h])
    | nothing_at_path => (Raise OSError, st)
    end.

(** [h.readlines()]; a handle exists only on a file that was opened. *)
Definition readlines (target : Target) (h : Handle) : M (list string) :=
  match target with
  | at_path f =>
      match decoded f (henc h) with
      | Some content => ret (readlines_of content)
      | None => raise UnicodeDecodeError
      end
  | nothing_at_path => raise OSError
  end.

(** [h.close()]. *)
Definition close (h : Handle) : M unit :=
  fun st => (Ok tt, record st [EvClose h]).

(** Assignment to, and use of, the local variables of [main]. The file
    object that [input_doc] held loses its only reference when the
    variable is bound anew, and the interpreter closes it then. *)
Definition dropped (old : option Handle) : list Event :=
  match old with
  | Some h => [EvRelease h]
  | None => []
  end.

Definition set_input_doc (h : Handle) : M unit :=
  fun st => (Ok tt, mkState (stdout st) (stderr st)
                            (log st ++ dropped (input_doc st))%list
                            (nlp_state st)
                            (Some h) (lines st) (documents st)).

Definition set_lines (l : list string) : M unit :=
  fun st => (Ok tt, mkState (stdout st) (stderr st) (log st) (nlp_state st)
                            (input_doc st) (Some l) (documents st)).

Definition set_documents (d : list Document) : M unit :=
  fun st => (Ok tt, mkState (stdout st) (stderr st) (log st) (nlp_state st)
                            (input_doc st) (lines st) (Some d)).

Definition use {A} (name : string) (var : State -> option A) : M A :=
  fun st =>
    match var st with
    | Some v => (Ok v, st)
    | None => (Raise (UnboundLocalError name), st)
    end.

(** *** [print_cwb] *)

Definition print_cwb (document : string) (tag : string) : M unit :=
  doc <- call_NLP document ;;
  for_each (sents doc) (fun sentence =>
    print tag ;;
    sent <- call_NLP (sent_text sentence) ;;
    for_each (tokens sent) (fun token =>
      print (text token ++ tab ++ pos_ token ++ tab ++ lemma_ token)) ;;
    print (replace "<" "</" tag)).

(** The body of the loop over the sentences, named on its own. *)
Definition sentence_step (tag : string) (sentence : Span) : M unit :=
  print tag ;;
  sent <- call_NLP (sent_text sentence) ;;
  for_each (tokens sent) (fun token =>
    print (text token ++ tab ++ pos_ token ++ tab ++ lemma_ token)) ;;
  print (replace "<" "</" tag).

(** *** [print_header] and [print_footer] *)

Definition print_header (filename : string) : M unit :=
  let date_list := split "_" (take 10 filename) in
  let name := "id=" ++ dq ++ replace "-" "_" (drop_end 4 filename) ++ dq in
  let date := "date=" ++ dq ++ join "_" date_list ++ dq in
  y <- lift (item date_list 0) ;;
  let year := "year=" ++ dq ++ y ++ dq in
  m <- lift (item date_list 1) ;;
  let month := "month=" ++ dq ++ m ++ dq in
  d <- lift (item date_list 2) ;;
  let day := "day=" ++ dq ++ d ++ dq in
  let header := "<text " ++ name ++ " " ++ date ++ " " ++ year ++ " "
                ++ month ++ " " ++ day ++ ">" in
  print header.

Definition print_footer : M unit := print "</text>".

(** *** [main] *)

(** [documents = create_document_list(lines)], with the start of the
    segmentation recorded. *)
Definition segment (ls : list string) : M (list Document) :=
  fun st => (create_document_list ls, record st [EvSegment]).

(** [main], for the path [filepath] taken from the command line;
    [target] is what the file system holds at that path. *)
Definition main (filepath : string) (target : Target) : M unit :=
  let filename := last_item (split "/" filepath) in
  try_except_finally
    (h <- open_file target utf_8 ;;
     set_input_doc h ;;
     h <- use "input_doc" input_doc ;;
     ls <- readlines target h ;;
     set_lines ls)
    [ (is_UnicodeDecodeError,
       h <- open_file target cp1252 ;;
       set_input_doc h ;;
       h <- use "input_doc" input_doc ;;
       ls <- readlines target h ;;
       set_lines ls);
      (is_UnicodeDecodeError,
       eprint ("Could not convert file: " ++ filename) ;;
       sys_exit 1) ]
    (h <- use "input_doc" input_doc ;;
     close h ;;
     ls <- use "lines" lines ;;
     ds <- segment ls ;;
     set_documents ds) ;;
  ds <- use "documents" documents ;;
  for_each ds (fun doc =>
    print_header filename ;;
    print_cwb (header doc) "<h1>" ;;
    print_cwb (body doc) "<s>" ;;
    print_footer).

(** The body of the loop of [main], named on its own. *)
Definition doc_step (filename : string) (doc : Document) : M unit :=
  print_header filename ;;
  print_cwb (header doc) "<h1>" ;;
  print_cwb (body doc) "<s>" ;;
  print_footer.

(** Two states that differ at most in the state of the pipeline. *)
Definition agree (st1 st2 : State) : Prop :=
  stdout st1 = stdout st2 /\ stderr st1 = stderr st2 /\ log st1 = log st2
  /\ input_doc st1 = input_doc st2 /\ lines st1 = lines st2
  /\ documents st1 = documents st2.

(** A computation that cannot tell such states apart. *)
Definition steady {A} (c : M A) : Prop :=
  forall st1 st2, agree st1 st2 ->
    fst (c st1) = fst (c st2) /\ agree (snd (c st1)) (snd (c st2)).

(** The state in which the process starts, for a freshly loaded
    pipeline in state [ps]. *)
Definition initial (ps : PS) : State := mkState [] [] [] ps None None None.

(** The exit status of the process: 0 when [main] returns, the argument
    of [sys.exit], and 1 when another exception is not caught (the
    interpreter then prints a traceback, which is not in [stderr]). *)
Definition exit_status (r : Result unit) : nat :=
  match r with
  | Ok _ => 0
  | Raise (SystemExit code) => code
  | Raise _ => 1
  end.

(** Successive calls of the pipeline on a list of inputs. *)
Fixpoint nlp_calls (ps : PS) (inputs : list string) : list Doc * PS :=
  match inputs with
  | [] => ([], ps)
  | t :: r =>
      let '(d, ps1) := NLP ps t in
      let '(ds, ps2) := nlp_calls ps1 r in
      (d :: ds, ps2)
  end.

(** The lines that [print_cwb] prints for a text under a tag when the
    pipeline is in state [ps], with the state in which it leaves the
    pipeline, and the calls of the pipeline that it makes. *)
Definition cwb_lines (ps : PS) (document tag : string) : list string * PS :=
  let first := NLP ps document in
  let second := nlp_calls (snd first) (map sent_text (sents (fst first))) in
  (flat_map (fun d => render tag (tokens d)) (fst second), snd second).

Definition cwb_events (ps : PS) (document : string) : list Event :=
  EvNLP document :: map EvNLP (map sent_text (sents (fst (NLP ps document)))).

(** A pipeline is deterministic when what it returns for an input does
    not depend on its state. *)
Definition deterministic : Prop :=
  forall ps ps' input, fst (NLP ps input) = fst (NLP ps' input).

End Program.

Arguments mkState {PS}.
Arguments stdout {PS}.
Arguments stderr {PS}.
Arguments log {PS}.
Arguments nlp_state {PS}.
Arguments input_doc {PS}.
Arguments lines {PS}.
Arguments documents {PS}.
Arguments ret {PS A}.
Arguments raise {PS A}.
Arguments bind {PS A B}.
Arguments lift {PS A}.
Arguments for_each {PS A}.
Arguments emit {PS}.
Arguments emit_err {PS}.
Arguments record {PS}.
Arguments with_nlp_state {PS}.
Arguments advance {PS}.
Arguments print {PS}.
Arguments print_header {PS}.
Arguments print_footer {PS}.
Arguments print_cwb {PS}.
Arguments call_NLP {PS}.
Arguments sentence_step {PS}.
Arguments main {PS}.
Arguments initial {PS}.
Arguments nlp_calls {PS}.
Arguments deterministic {PS}.
Arguments cwb_lines {PS}.
Arguments cwb_events {PS}.
Arguments segment {PS}.
Arguments doc_step {PS}.
Arguments agree {PS}.
Arguments steady {PS A}.
Arguments try_except_finally {PS}.
Arguments first_match {PS}.
Arguments set_input_doc {PS}.
Arguments set_lines {PS}.
Arguments set_documents {PS}.
Arguments eprint {PS}.
Arguments sys_exit {PS}.
Arguments use {PS A}.
Arguments open_file {PS}.
Arguments close {PS}.
Arguments readlines {PS}.

(* ================================================================= *)
(** ** A test double for the pipeline *)

Module Fake.

Definition nonempty (s : string) : bool :=
  negb (String.eqb s "").

Definition words (s : string) : list string := filter nonempty (split " " s).

Definition ends_with_dot (w : string) : bool :=
  match last_char w with
  | Some c => Ascii.eqb c "."%char
  | None => false
  end.

(** Words are grouped into sentences; a word that ends in a full stop
    closes its sentence. *)
Fixpoint group_sents (cur : list string) (ws : list string) : list (list string) :=
  match ws with
  | [] => match cur with [] => [] | _ => [cur] end
  | w :: r =>
      if ends_with_dot w then (cur ++ [w])%list :: group_sents [] r
      else group_sents (cur ++ [w])%list r
  end.

Definition plain (w : string) : Token := mkToken w "X" w.

(** The first token of an analysed text is tagged [INIT], the others
    [X]: the tag of a word depends on where the analysed text starts. *)
Definition tag_tokens (ws : list string) : list Token :=
  match ws with
  | [] => []
  | w :: r => mkToken w "INIT" w :: map plain r
  end.

Definition analyse (input : string) : Doc :=
  let ws := words input in
  mkDoc (tag_tokens ws)
        match group_sents [] ws with
        | [] => []
        | g :: gs =>
            mkSpan (join " " g) (tag_tokens g)
            :: map (fun g' => mkSpan (join " " g') (map plain g')) gs
        end.

(** The state of the double counts the calls; the result ignores it. *)
Definition NLP (ps : nat) (input : string) : Doc * nat := (analyse input, S ps).

(** A double whose output depends on its state: the lemma of every
    token carries the parity of the number of calls made before. *)
Definition mark (ps : nat) (t : Token) : Token :=
  mkToken (text t) (pos_ t) (if Nat.even ps then lemma_ t else lemma_ t ++ "'").

Definition drifting_NLP (ps : nat) (input : string) : Doc * nat :=
  (mkDoc (map (mark ps) (tokens (analyse input))) (sents (analyse input)), S ps).

(** A double that, as spaCy does with whitespace other than a single
    space, returns every tab of the text as a token of its own, tagged
    [SPACE]; the text is one sentence. *)
Definition space_token : Token := mkToken tab "SPACE" tab.

Fixpoint between (sep : Token) (l : list (list Token)) : list Token :=
  match l with
  | [] => []
  | [x] => x
  | x :: r => (x ++ sep :: between sep r)%list
  end.

Definition tab_tokens (input : string) : list Token :=
  between space_token
    (map (fun w => if nonempty w then [plain w] else []) (split tab_char input)).

Definition analyse_tabs (input : string) : Doc :=
  mkDoc (tab_tokens input)
        (if nonempty input then [mkSpan input (tab_tokens input)] else []).

Definition tab_NLP (ps : nat) (input : string) : Doc * nat :=
  (analyse_tabs input, S ps).

End Fake.

(** The file of the scenario of the specification. *)
Definition scenario_path : string := "corpus/2017_11_03_example-text.txt".

Definition scenario_content : string :=
  "Headline Text" ++ nl ++ nl ++ "Body line one. Body line two." ++ nl.

Definition scenario_file : File :=
  mkFile (Some scenario_content) (Some scenario_content).

Definition scenario_tag : string :=
  text_tag "2017_11_03_example_text" "2017_11_03" "2017" "11" "03".

(** The line that [print_header] prints when it does not raise. *)
Definition header_line (filename : string) : string :=
  let date_list := split "_" (take 10 filename) in
  text_tag (replace "-" "_" (drop_end 4 filename)) (take 10 filename)
           (nth 0 date_list "") (nth 1 date_list "") (nth 2 date_list "").

(** What [main] prints for one document: the header line, the blocks of
    the header under [<h1>], the blocks of the body under [<s>] and the
    closing line. *)
Definition text_block (filename : string) (h s : list (list Token))
  : list string :=
  (header_line filename
   :: flat_map (render "<h1>") h ++ flat_map (render "<s>") s
   ++ ["</text>"])%list.

(** The number of [</text>] lines in an output. *)
Definition text_blocks (out : list string) : nat :=
  length (filter (String.eqb "</text>") out).

(** The decimal digits, for the date part of a file name. *)
Definition is_digit (c : ascii) : bool :=
  let n := nat_of_ascii c in ((48 <=? n) && (n <=? 57))%nat.

Fixpoint all_digits (s : string) : bool :=
  match s with
  | EmptyString => true
  | String c s' => is_digit c && all_digits s'
  end.

(** The decoded text that [main] ends up with: that of the first read
    when it succeeds, else that of the second. *)
Definition selected (f : File) : option string :=
  match as_utf_8 f with
  | Some content => Some content
  | None => as_cp1252 f
  end.

(** Whether [print_header] finds its three pieces in a name. *)
Definition accepted_name (filename : string) : bool :=
  (2 <=? count_char "_" (take 10 filename))%nat.

(** The number of lines of an output that are equal to a given line. *)
Definition occurrences (s : string) (out : list string) : nat :=
  length (filter (String.eqb s) out).

(** A line as [readlines] returns it: no newline except possibly as its
    last character. *)
Definition one_line (l : string) : Prop :=
  (count_char nl_char l = 0)%nat
  \/ exists s, l = s ++ nl /\ (count_char nl_char s = 0)%nat.

(** A piece of the buffer: right-trimmed and without newline. *)
Definition trimmed_piece (p : string) : Prop :=
  (count_char nl_char p = 0)%nat /\ rstrip p = p.

Definition single_line_document (d : Document) : Prop :=
  (count_char nl_char (header d) = 0)%nat
  /\ (count_char nl_char (body d) = 0)%nat
  /\ rstrip (header d) = header d.

(** An event of the log that is the opening, the closing or the release
    of a handle. *)
Definition is_file_event (e : Event) : bool :=
  match e with EvOpen _ | EvClose _ | EvRelease _ => true | _ => false end.

(* ================================================================= *)
(** * Properties *)

Open Scope nat_scope.

(** ** Strings *)

Example rstrip_line : rstrip ("Hola  " ++ nl) = "Hola".
Proof. reflexivity. Qed.

Example rstrip_inner : rstrip (" a b" ++ tab ++ nl) = " a b".
Proof. reflexivity. Qed.

Example split_date : split "_" "2017_11_03" = ["2017"; "11"; "03"].
Proof. reflexivity. Qed.

Example split_edges : split "_" "_a__" = [""; "a"; ""; ""].
Proof. reflexivity. Qed.

Example replace_close : replace "<" "</" "<h1>" = "</h1>".
Proof. reflexivity. Qed.

Example readlines_example :
  readlines_of ("a" ++ nl ++ nl ++ "b") = ["a" ++ nl; nl; "b"].
Proof. reflexivity. Qed.

Example drop_end_short : drop_end 4 "ab" = "".
Proof. reflexivity. Qed.

Lemma append_assoc (a b c : string) : (a ++ b) ++ c = a ++ (b ++ c).
Proof. induction a as [|x a IH]; simpl; [reflexivity | now rewrite IH]. Qed.

Lemma append_empty_r (a : string) : a ++ "" = a.
Proof. induction a as [|x a IH]; simpl; [reflexivity | now rewrite IH]. Qed.

Lemma length_append (a b : string) :
  String.length (a ++ b) = String.length a + String.length b.
Proof. induction a as [|x a IH]; simpl; [reflexivity | now rewrite IH]. Qed.

Lemma take_append (a b : string) : take (String.length a) (a ++ b) = a.
Proof. induction a as [|x a IH]; simpl; [now destruct b | now rewrite IH]. Qed.

Lemma drop_end_append (a b : string) : drop_end (String.length b) (a ++ b) = a.
Proof.
  unfold drop_end. rewrite length_append.
  replace (String.length a + String.length b - String.length b)
    with (String.length a) by lia.
  apply take_append.
Qed.

Lemma count_char_append (c : ascii) (a b : string) :
  count_char c (a ++ b) = count_char c a + count_char c b.
Proof. induction a as [|x a IH]; simpl; [reflexivity | rewrite IH; lia]. Qed.

Lemma split_not_nil (c : ascii) (s : string) : split c s <> [].
Proof.
  destruct s as [|x s]; simpl; [discriminate|].
  destruct (Ascii.eqb x c); [discriminate|].
  destruct (split c s); discriminate.
Qed.

(** [str.split] gives one piece more than there are separators. *)
Lemma length_split (c : ascii) (s : string) :
  length (split c s) = S (count_char c s).
Proof.
  induction s as [|x s IH]; simpl; [reflexivity|].
  destruct (Ascii.eqb x c); simpl; [now rewrite IH|].
  destruct (split c s) eqn:E; simpl in *; [discriminate | exact IH].
Qed.

(** Joining the pieces with the separator gives the string back. *)
Lemma join_split (c : ascii) (s : string) :
  join (String c "") (split c s) = s.
Proof.
  unfold join. induction s as [|x s IH]; simpl; [reflexivity|].
  destruct (Ascii.eqb_spec x c) as [->|N].
  - pose proof (split_not_nil c s) as NN.
    destruct (split c s) as [|p ps]; [contradiction|].
    simpl. simpl in IH. now rewrite IH.
  - pose proof (split_not_nil c s) as NN.
    destruct (split c s) as [|p ps]; [contradiction|].
    destruct ps as [|q qs]; simpl in *; now rewrite <- IH.
Qed.

Lemma split_without (c : ascii) (s : string) :
  count_char c s = 0 -> split c s = [s].
Proof.
  induction s as [|x s IH]; simpl; [reflexivity|].
  destruct (Ascii.eqb x c); [discriminate|].
  simpl. intros H. now rewrite IH.
Qed.

Lemma split_append (c : ascii) (a b : string) :
  count_char c a = 0 -> split c (a ++ String c b) = a :: split c b.
Proof.
  induction a as [|x a IH]; simpl.
  - now rewrite Ascii.eqb_refl.
  - destruct (Ascii.eqb x c); [discriminate|].
    simpl. intros H. now rewrite IH.
Qed.

(** After [replace], the replaced character is gone, provided the
    replacement does not bring it back. *)
Lemma replace_removes (old : ascii) (new s : string) :
  count_char old new = 0 -> count_char old (replace old new s) = 0.
Proof.
  intros H. induction s as [|x s IH]; simpl; [reflexivity|].
  destruct (Ascii.eqb x old) eqn:E.
  - rewrite count_char_append. lia.
  - simpl. rewrite E. exact IH.
Qed.

Lemma digits_no_underscore (s : string) :
  all_digits s = true -> count_char "_" s = 0.
Proof.
  induction s as [|x s IH]; simpl; [reflexivity|].
  intros H. apply andb_prop in H as [Hx Hs].
  rewrite (IH Hs).
  destruct (Ascii.eqb_spec x "_"%char) as [->|_]; [discriminate Hx | reflexivity].
Qed.

(** ** [print_header] *)

Section Header.

Variable PS : Type.

(** What [print_header] does on any file name: it raises [IndexError]
    when the first 10 characters hold fewer than two underscores, and
    otherwise prints the tag built from the first three pieces. *)
Lemma print_header_cases (filename : string) (st : State PS) :
  print_header filename st =
    let date_list := split "_" (take 10 filename) in
    if 2 <=? count_char "_" (take 10 filename) then
      (Ok tt,
       emit st [text_tag (replace "-" "_" (drop_end 4 filename))
                         (take 10 filename)
                         (nth 0 date_list "") (nth 1 date_list "")
                         (nth 2 date_list "")])
    else (Raise IndexError, st).
Proof.
  unfold print_header.
  pose proof (length_split "_" (take 10 filename)) as L.
  pose proof (join_split "_" (take 10 filename)) as J.
  cbv zeta.
  destruct (split "_" (take 10 filename)) as [|y [|m [|d r]]] eqn:E;
    cbn [length] in L.
  - discriminate.
  - replace (count_char "_" (take 10 filename)) with 0 by lia. reflexivity.
  - replace (count_char "_" (take 10 filename)) with 1 by lia. reflexivity.
  - destruct (Nat.leb_spec 2 (count_char "_" (take 10 filename))); [|lia].
    unfold bind, lift, item, print, text_tag. simpl nth_error. simpl nth.
    rewrite J. reflexivity.
Qed.

(** C4. For a file name [YYYY_MM_DD_<slug>.txt], [print_header] prints
    exactly the tag [<text id=... date=... year=... month=... day=...>]
    in which year, month and day are the three pieces of the first 10
    characters split at the underscores, date is these pieces joined by
    underscores, and id is the file name without its last 4 characters
    and with every dash replaced by an underscore, so that id holds no
    dash. *)
Theorem print_header_dated_name (Y Mo D slug : string) (st : State PS) :
  String.length Y = 4 -> all_digits Y = true ->
  String.length Mo = 2 -> all_digits Mo = true ->
  String.length D = 2 -> all_digits D = true ->
  let stem := Y ++ "_" ++ Mo ++ "_" ++ D ++ "_" ++ slug in
  let filename := stem ++ ".txt" in
  let id := replace "-" "_" (drop_end 4 filename) in
  split "_" (take 10 filename) = [Y; Mo; D]
  /\ drop_end 4 filename = stem
  /\ count_char "-" id = 0
  /\ print_header filename st =
       (Ok tt, emit st [text_tag id (join "_" [Y; Mo; D]) Y Mo D]).
Proof.
  intros LY DY LM DM LD DD stem filename id.
  assert (P : take 10 filename = Y ++ "_" ++ Mo ++ "_" ++ D).
  { unfold filename, stem.
    replace ((Y ++ "_" ++ Mo ++ "_" ++ D ++ "_" ++ slug) ++ ".txt")
      with ((Y ++ "_" ++ Mo ++ "_" ++ D) ++ ("_" ++ slug ++ ".txt"))
      by (rewrite !append_assoc; reflexivity).
    replace 10 with (String.length (Y ++ "_" ++ Mo ++ "_" ++ D))
      by (rewrite !length_append; simpl; lia).
    apply take_append. }
  assert (S3 : split "_" (take 10 filename) = [Y; Mo; D]).
  { rewrite P. cbn [append].
    rewrite (split_append "_" Y) by now apply digits_no_underscore.
    rewrite (split_append "_" Mo) by now apply digits_no_underscore.
    rewrite split_without by now apply digits_no_underscore.
    reflexivity. }
  assert (E4 : drop_end 4 filename = stem)
    by (unfold filename; apply (drop_end_append stem ".txt")).
  repeat split.
  - exact S3.
  - exact E4.
  - unfold id. now apply replace_removes.
  - rewrite print_header_cases. cbv zeta.
    pose proof (length_split "_" (take 10 filename)) as L.
    rewrite S3 in L. cbn [length] in L.
    destruct (Nat.leb_spec 2 (count_char "_" (take 10 filename))); [|lia].
    rewrite S3. simpl nth. rewrite P. reflexivity.
Qed.

(** C7, as the code has it. For every file name, [print_header] raises
    [IndexError] and prints nothing when the first 10 characters hold
    fewer than two underscores; otherwise it completes and prints a tag
    whose date is these 10 characters and whose year, month and day are
    their first three pieces, whatever they are. *)
Theorem print_header_any_name (filename : string) (st : State PS) :
  print_header filename st =
    let date_list := split "_" (take 10 filename) in
    if 2 <=? count_char "_" (take 10 filename) then
      (Ok tt,
       emit st [text_tag (replace "-" "_" (drop_end 4 filename))
                         (take 10 filename)
                         (nth 0 date_list "") (nth 1 date_list "")
                         (nth 2 date_list "")])
    else (Raise IndexError, st).
Proof. apply print_header_cases. Qed.

End Header.

Lemma print_header_dated_name_witness :
  let filename := "2017_11_03_example-text.txt" in
  split "_" (take 10 filename) = ["2017"; "11"; "03"]
  /\ drop_end 4 filename = "2017_11_03_example-text"
  /\ count_char "-" (replace "-" "_" (drop_end 4 filename)) = 0
  /\ print_header filename (initial 0) =
       (Ok tt,
        emit (initial 0)
             [text_tag (replace "-" "_" (drop_end 4 filename))
                       (join "_" ["2017"; "11"; "03"]) "2017" "11" "03"]).
Proof.
  exact (print_header_dated_name nat "2017" "11" "03" "example-text" (initial 0)
           eq_refl eq_refl eq_refl eq_refl eq_refl eq_refl).
Defined.

(** The tag of the scenario, as text. *)
Example scenario_header :
  fst (print_header "2017_11_03_example-text.txt" (initial 0)) = Ok tt
  /\ stdout (snd (print_header "2017_11_03_example-text.txt" (initial 0))) =
       ["<text id=" ++ dq ++ "2017_11_03_example_text" ++ dq
        ++ " date=" ++ dq ++ "2017_11_03" ++ dq
        ++ " year=" ++ dq ++ "2017" ++ dq
        ++ " month=" ++ dq ++ "11" ++ dq
        ++ " day=" ++ dq ++ "03" ++ dq ++ ">"].
Proof. split; reflexivity. Qed.

(** C7, the claim refuted: a name without underscores makes
    [print_header] raise [IndexError]; nothing is printed. *)
Lemma print_header_raises_on_plain_name :
  print_header "notes.txt" (initial 0) = (Raise IndexError, initial 0).
Proof. reflexivity. Qed.

(** A malformed name with two underscores in its first 10 characters is
    accepted, with pieces that are no date. *)
Example print_header_misparse :
  print_header "ab_cd_ef.txt" (initial 0) =
    (Ok tt, emit (initial 0)
              [text_tag "ab_cd_ef" "ab_cd_ef.t" "ab" "cd" "ef.t"]).
Proof. reflexivity. Qed.

(** ** The segmenter *)

Lemma create_document_cons (h : string) (t : list string) :
  create_document (h :: t) = Ok (mkDocument h (join " " t)).
Proof. reflexivity. Qed.

(** A buffer to which a line was just appended is never empty, so
    [create_document] does not raise inside the loop. *)
Lemma create_document_snoc (buf : list string) (x : string) :
  exists d, create_document (buf ++ [x])%list = Ok d.
Proof. destruct buf; simpl; eexists; apply create_document_cons. Qed.

Lemma count_true_cons (b : bool) (l : list bool) :
  count_true (b :: l) = (if b then 1 else 0) + count_true l.
Proof. unfold count_true. destruct b; reflexivity. Qed.

Lemma count_true_app (l1 l2 : list bool) :
  count_true (l1 ++ l2)%list = count_true l1 + count_true l2.
Proof.
  unfold count_true. rewrite filter_app, length_app. reflexivity.
Qed.

(** The loop never raises; it adds one document per line on which the
    test of the [if] holds. *)
Lemma segment_loop_total (lastline : string) (rest : list string) :
  forall document docs,
  exists more,
    segment_loop lastline document docs rest = Ok (docs ++ more)%list
    /\ length more = count_true (map (is_boundary lastline) rest).
Proof.
  induction rest as [|line rest IH]; intros document docs; simpl.
  - exists []. now rewrite app_nil_r.
  - rewrite count_true_cons.
    destruct (is_boundary lastline line).
    + destruct (create_document_snoc document (rstrip line)) as [d ->].
      destruct (IH [] (docs ++ [d])%list) as [more [E L]].
      exists (d :: more). rewrite E, <- app_assoc. simpl. auto.
    + destruct (IH (document ++ [rstrip line])%list docs) as [more [E L]].
      exists more. auto.
Qed.

(** [create_document_list] returns on every input, with as many
    documents as there are lines on which the test of the loop holds. *)
Lemma create_document_list_total (lines_of_file : list string) :
  exists docs,
    create_document_list lines_of_file = Ok docs
    /\ length docs = count_true (boundary_flags lines_of_file).
Proof.
  destruct (segment_loop_total (last_item lines_of_file) lines_of_file [] [])
    as [more [E L]].
  exists more. split; assumption.
Qed.

(** Where the text of the last line occurs earlier in the file only if
    it is the blank line, the test of the loop is the rule of the
    specification. *)
Lemma boundary_flags_positional_gen (lastline : string) (l : list string) :
  l <> [] -> last_item l = lastline ->
  (forall x, In x (removelast l) -> x = lastline -> x = nl) ->
  map (is_boundary lastline) l = spec_boundary_flags l.
Proof.
  induction l as [|x [|y r] IH]; intros NE LA NI.
  - contradiction.
  - simpl in *. subst. unfold is_boundary.
    now rewrite String.eqb_refl, orb_true_r.
  - change (map (is_boundary lastline) (x :: y :: r))
      with (is_boundary lastline x :: map (is_boundary lastline) (y :: r)).
    change (spec_boundary_flags (x :: y :: r))
      with (String.eqb x nl :: spec_boundary_flags (y :: r)).
    rewrite IH.
    + f_equal. unfold is_boundary.
      destruct (String.eqb_spec x lastline) as [E|_].
      * rewrite (NI x (or_introl eq_refl) E). reflexivity.
      * apply orb_false_r.
    + discriminate.
    + exact LA.
    + intros z HIn. apply NI. now right.
Qed.

(** X14. When the text of the last line occurs earlier in the file only
    as the blank line, the lines at which [create_document_list] flushes
    are the blank lines and the line at the last position, and no
    other. *)
Lemma boundary_flags_positional (lines_of_file : list string) :
  (forall x, In x (removelast lines_of_file) ->
             x = last_item lines_of_file -> x = nl) ->
  boundary_flags lines_of_file = spec_boundary_flags lines_of_file.
Proof.
  destruct lines_of_file as [|x r]; [reflexivity|].
  intros NI. apply boundary_flags_positional_gen; [discriminate | reflexivity | exact NI].
Qed.

(** C1, the code against the claim. In a file of three lines of which
    the first has the text of the last, the loop flushes at the first
    line, which is neither blank nor the last: it returns two documents
    for one block, where the rule of the specification sets one boundary. *)
Theorem segmenter_flushes_at_repeated_line :
  let lines_of_file := readlines_of ("a" ++ nl ++ "b" ++ nl ++ "a" ++ nl) in
  lines_of_file = ["a" ++ nl; "b" ++ nl; "a" ++ nl]
  /\ create_document_list lines_of_file
     = Ok [mkDocument "a" ""; mkDocument "b" "a"]
  /\ boundary_flags lines_of_file = [true; false; true]
  /\ spec_boundary_flags lines_of_file = [false; false; true].
Proof. repeat split. Qed.

(** Blocks that end at a blank line, and a last block without one. *)
Example segmenter_three_blocks :
  create_document_list
    (readlines_of ("h1" ++ nl ++ "b1" ++ nl ++ "b2 " ++ nl ++ nl
                   ++ "h2" ++ nl ++ nl ++ "h3" ++ nl ++ "b3"))
  = Ok [mkDocument "h1" "b1 b2 "; mkDocument "h2" ""; mkDocument "h3" "b3"].
Proof. reflexivity. Qed.

(** Two blank lines in a row give a document with an empty header. *)
Example segmenter_blank_run :
  create_document_list (readlines_of ("h" ++ nl ++ nl ++ nl ++ "x" ++ nl))
  = Ok [mkDocument "h" ""; mkDocument "" ""; mkDocument "x" ""].
Proof. reflexivity. Qed.

(** ** The body of a flushed document *)

Lemma last_char_append (a b : string) :
  b <> "" -> last_char (a ++ b) = last_char b.
Proof.
  intros NB. induction a as [|x a IH]; [reflexivity|].
  change (String x a ++ b) with (String x (a ++ b)).
  destruct (a ++ b) eqn:E.
  - destruct a; destruct b; simpl in E; try discriminate. contradiction.
  - simpl. exact IH.
Qed.

Lemma last_char_none (s : string) : last_char s = None -> s = "".
Proof.
  induction s as [|x s IH]; [reflexivity|].
  destruct s as [|y s]; [discriminate|].
  intros H. specialize (IH H). discriminate.
Qed.

(** What [rstrip] returns does not end in whitespace. *)
Lemma rstrip_last_char (s : string) (c : ascii) :
  last_char (rstrip s) = Some c -> is_space c = false.
Proof.
  induction s as [|x s IH]; simpl; [discriminate|].
  destruct (rstrip s) as [|y r] eqn:E.
  - destruct (is_space x) eqn:Sx; simpl; [discriminate|].
    intros H. now inversion H; subst.
  - intros H. apply IH. exact H.
Qed.

Lemma rstrip_nl : rstrip nl = "".
Proof. reflexivity. Qed.

Lemma join_cons2 (sep x y : string) (l : list string) :
  join sep (x :: y :: l) = x ++ sep ++ join sep (y :: l).
Proof. reflexivity. Qed.

(** The last character of a joined list is that of its last item when
    that item is not empty. *)
Lemma last_char_join_snoc (sep x : string) (l : list string) :
  x <> "" -> last_char (join sep (l ++ [x])%list) = last_char x.
Proof.
  intros NX. induction l as [|y l IH]; [reflexivity|].
  destruct (l ++ [x])%list as [|z r] eqn:E.
  - destruct l; discriminate.
  - change ((y :: l) ++ [x])%list with (y :: (l ++ [x]))%list.
    rewrite E, join_cons2.
    assert (NJ : join sep (z :: r) <> "").
    { intros Z. rewrite Z in IH. simpl in IH.
      symmetry in IH. apply last_char_none in IH. contradiction. }
    rewrite last_char_append.
    + rewrite last_char_append by exact NJ. exact IH.
    + destruct sep; simpl; [exact NJ | discriminate].
Qed.

(** A joined list whose last item is empty, and which has another item,
    ends with the separator. *)
Lemma join_snoc_empty (sep : string) (l : list string) :
  l <> [] -> join sep (l ++ [""])%list = join sep l ++ sep.
Proof.
  induction l as [|y l IH]; intros NE; [contradiction|].
  destruct l as [|z r].
  - simpl. now rewrite append_empty_r.
  - change ((y :: z :: r) ++ [""])%list with (y :: ((z :: r) ++ [""]))%list.
    change ((z :: r) ++ [""])%list with (z :: (r ++ [""]))%list.
    rewrite join_cons2.
    change (z :: (r ++ [""]))%list with ((z :: r) ++ [""])%list.
    rewrite IH by discriminate.
    rewrite join_cons2, !append_assoc. reflexivity.
Qed.

Lemma ends_with_space_append (a : string) : ends_with_space (a ++ " ") = true.
Proof.
  unfold ends_with_space. rewrite last_char_append by discriminate. reflexivity.
Qed.

(** A run of lines without a boundary is buffered; the boundary line
    that follows is appended, right-trimmed, before the flush. *)
Lemma segment_loop_block (lastline : string) (block : list string) :
  forall document docs l rest,
  Forall (fun x => is_boundary lastline x = false) block ->
  is_boundary lastline l = true ->
  segment_loop lastline document docs (block ++ l :: rest)%list =
    match create_document (document ++ map rstrip (block ++ [l]))%list with
    | Ok d => segment_loop lastline [] (docs ++ [d])%list rest
    | Raise e => Raise e
    end.
Proof.
  induction block as [|x block IH]; intros document docs l rest HB HL.
  - simpl. now rewrite HL.
  - inversion HB as [|? ? Hx Hr]; subst.
    simpl. rewrite Hx. rewrite IH by assumption.
    now rewrite <- app_assoc.
Qed.

(** A prefix of the file that ends at a boundary line leaves the buffer
    empty. *)
Lemma segment_loop_closed_prefix (lastline : string) (before : list string) :
  forall document docs x rest,
  is_boundary lastline x = true ->
  exists docs1,
    segment_loop lastline document docs ((before ++ [x]) ++ rest)%list =
      segment_loop lastline [] (docs ++ docs1)%list rest
    /\ length docs1 = count_true (map (is_boundary lastline) (before ++ [x])%list).
Proof.
  induction before as [|y before IH]; intros document docs x rest HX.
  - cbn [app map segment_loop]. rewrite HX.
    destruct (create_document_snoc document (rstrip x)) as [d ->].
    exists [d]. split; reflexivity.
  - cbn [app map segment_loop]. rewrite count_true_cons.
    destruct (is_boundary lastline y).
    + destruct (create_document_snoc document (rstrip y)) as [d ->].
      destruct (IH [] (docs ++ [d])%list x rest HX) as [docs1 [E L]].
      exists (d :: docs1). rewrite E, <- app_assoc. simpl. auto.
    + destruct (IH (document ++ [rstrip y])%list docs x rest HX) as [docs1 [E L]].
      exists docs1. auto.
Qed.

(** C10, as the code has it. Take a boundary line [l] of a file, the
    lines [block] buffered before it since the previous boundary, and
    the document [d] flushed at [l]. Then [d] is made from the buffered
    lines with [l] appended, all right-trimmed; when [l] is the blank
    line and [block] holds the header and at least one more line, the
    body of [d] ends with a space; when [l] is the last line of the file
    and holds a character that is not whitespace, the body of [d] does
    not end with a space. *)
Theorem flushed_body_trailing_space
    (before block after : list string) (l : string) :
  let lines_of_file := (before ++ block ++ l :: after)%list in
  let lastline := last_item lines_of_file in
  before = [] \/ is_boundary lastline (last_item before) = true ->
  Forall (fun x => is_boundary lastline x = false) block ->
  is_boundary lastline l = true ->
  exists docs1 docs2 d,
    create_document_list lines_of_file = Ok (docs1 ++ d :: docs2)%list
    /\ length docs1 = count_true (map (is_boundary lastline) before)
    /\ create_document (map rstrip (block ++ [l])%list) = Ok d
    /\ (l = nl -> 2 <= length block -> ends_with_space (body d) = true)
    /\ (after = [] -> rstrip l <> "" -> ends_with_space (body d) = false).
Proof.
  intros lines_of_file lastline HB HN HL.
  assert (P : exists docs1,
             segment_loop lastline [] [] lines_of_file =
               segment_loop lastline [] docs1 (block ++ l :: after)%list
             /\ length docs1 = count_true (map (is_boundary lastline) before)).
  { destruct HB as [-> | HB].
    - exists []. split; reflexivity.
    - destruct before as [|b0 bs].
      + exists []. split; reflexivity.
      + destruct (@exists_last _ (b0 :: bs)) as [pre [x Epre]]; [discriminate|].
        rewrite Epre in HB. unfold last_item in HB. rewrite last_last in HB.
        destruct (segment_loop_closed_prefix lastline pre [] [] x
                    (block ++ l :: after)%list HB) as [docs1 [E L]].
        exists docs1. unfold lines_of_file. rewrite Epre. split; [exact E|exact L]. }
  destruct P as [docs1 [E1 L1]].
  destruct (create_document_snoc (map rstrip block) (rstrip l)) as [d Ed].
  assert (Ed' : create_document (map rstrip (block ++ [l])%list) = Ok d)
    by (rewrite map_app; exact Ed).
  destruct (segment_loop_total lastline after [] (docs1 ++ [d])%list)
    as [docs2 [E2 _]].
  exists docs1, docs2, d.
  split.
  { unfold create_document_list. fold lines_of_file. fold lastline.
    rewrite E1, segment_loop_block by assumption.
    simpl app at 1. rewrite Ed', E2, <- app_assoc. reflexivity. }
  split; [exact L1|]. split; [exact Ed'|].
  split.
  - intros -> Hlen.
    destruct block as [|h [|b1 bs]]; simpl in Hlen; try lia.
    cbn [map app] in Ed. rewrite create_document_cons in Ed.
    assert (Hd : body d = join " " ((rstrip b1 :: map rstrip bs) ++ [""])%list)
      by (injection Ed as <-; reflexivity).
    rewrite Hd, join_snoc_empty by discriminate.
    apply ends_with_space_append.
  - intros _ NE.
    destruct block as [|h bs]; cbn [map app] in Ed;
      rewrite create_document_cons in Ed.
    + injection Ed as <-. reflexivity.
    + assert (Hd : body d = join " " (map rstrip bs ++ [rstrip l])%list)
        by (injection Ed as <-; reflexivity).
      rewrite Hd. unfold ends_with_space.
      rewrite last_char_join_snoc by exact NE.
      destruct (last_char (rstrip l)) as [c|] eqn:Ec; [|reflexivity].
      apply rstrip_last_char in Ec.
      destruct (Ascii.eqb_spec c " "%char) as [->|_]; [discriminate Ec|reflexivity].
Qed.

Lemma flushed_body_trailing_space_witness :
  exists docs1 docs2 d,
    create_document_list
      ((["t" ++ nl; nl])%string ++ (["h" ++ nl; "b" ++ nl])%string
       ++ nl :: (["x" ++ nl])%string)%list
      = Ok (docs1 ++ d :: docs2)%list
    /\ length docs1 =
       count_true (map (is_boundary ("x" ++ nl)) ["t" ++ nl; nl])
    /\ create_document
         (map rstrip ((["h" ++ nl; "b" ++ nl])%string ++ [nl])%list) = Ok d
    /\ (nl = nl -> 2 <= length ["h" ++ nl; "b" ++ nl] ->
        ends_with_space (body d) = true)
    /\ (["x" ++ nl] = [] -> rstrip nl <> "" -> ends_with_space (body d) = false).
Proof.
  apply (flushed_body_trailing_space
           ["t" ++ nl; nl] ["h" ++ nl; "b" ++ nl] ["x" ++ nl] nl).
  - right. reflexivity.
  - repeat constructor.
  - reflexivity.
Defined.

(** C10, the claim refuted: a file without a blank line whose last line
    holds only a space is flushed at the end of the file alone, and the
    body of its document ends with a space. *)
Lemma eof_flush_with_trailing_space :
  spec_boundary_flags (readlines_of ("h" ++ nl ++ "b" ++ nl ++ " " ++ nl))
    = [false; false; true]
  /\ create_document_list (readlines_of ("h" ++ nl ++ "b" ++ nl ++ " " ++ nl))
     = Ok [mkDocument "h" "b "]
  /\ ends_with_space (body (mkDocument "h" "b ")) = true.
Proof. repeat split. Qed.

(** The same flush with a last line that holds text. *)
Example eof_flush_plain :
  create_document_list (readlines_of ("h" ++ nl ++ "b" ++ nl ++ "c  " ++ nl))
  = Ok [mkDocument "h" "b c"].
Proof. reflexivity. Qed.

(** ** [print_cwb] *)

Section Emitter.

Variable PS : Type.
Variable NLP : PS -> string -> Doc * PS.

Implicit Types (st : State PS) (tag : string).

Lemma advance_advance st out1 evs1 ps1 out2 evs2 ps2 :
  advance (advance st out1 evs1 ps1) out2 evs2 ps2 =
  advance st (out1 ++ out2)%list (evs1 ++ evs2)%list ps2.
Proof. unfold advance. simpl. now rewrite !app_assoc. Qed.

Lemma advance_nothing st : advance st [] [] (nlp_state st) = st.
Proof. destruct st. unfold advance. simpl. now rewrite !app_nil_r. Qed.

Lemma emit_as_advance st out : emit st out = advance st out [] (nlp_state st).
Proof. unfold emit, advance. now rewrite app_nil_r. Qed.

(** The loop over the tokens prints one line per token and nothing else. *)
Lemma token_loop st (toks : list Token) :
  for_each toks (fun token =>
      print (text token ++ tab ++ pos_ token ++ tab ++ lemma_ token)) st
  = (Ok tt, emit st (map token_line toks)).
Proof.
  revert st. induction toks as [|t toks IH]; intros st.
  - simpl. unfold ret. rewrite emit_as_advance, advance_nothing. reflexivity.
  - simpl. unfold bind at 1. unfold print at 1. rewrite IH.
    f_equal. rewrite !emit_as_advance. simpl nlp_state.
    rewrite advance_advance. reflexivity.
Qed.

Lemma sentence_step_run st tag (sentence : Span) :
  sentence_step NLP tag sentence st =
    (Ok tt,
     advance st
       (render tag (tokens (fst (NLP (nlp_state st) (sent_text sentence)))))
       [EvNLP (sent_text sentence)]
       (snd (NLP (nlp_state st) (sent_text sentence)))).
Proof.
  unfold sentence_step, bind at 1, print at 1.
  unfold bind at 1, call_NLP. simpl nlp_state.
  destruct (NLP (nlp_state st) (sent_text sentence)) as [d ps1].
  unfold bind at 1. rewrite token_loop. unfold print.
  f_equal. unfold emit, record, with_nlp_state, advance, render. simpl.
  rewrite <- !app_assoc. reflexivity.
Qed.

Lemma sentence_loop st tag (ss : list Span) :
  for_each ss (sentence_step NLP tag) st =
    (Ok tt,
     advance st
       (flat_map (fun d => render tag (tokens d))
                 (fst (nlp_calls NLP (nlp_state st) (map sent_text ss))))
       (map EvNLP (map sent_text ss))
       (snd (nlp_calls NLP (nlp_state st) (map sent_text ss)))).
Proof.
  revert st. induction ss as [|s ss IH]; intros st.
  - simpl. unfold ret. now rewrite advance_nothing.
  - cbn [for_each]. unfold bind at 1. rewrite sentence_step_run, IH.
    cbn [map nlp_calls]. cbn [nlp_state advance].
    destruct (NLP (nlp_state st) (sent_text s)) as [d ps1]. cbn [fst snd].
    destruct (nlp_calls NLP ps1 (map sent_text ss)) as [ds ps2]. cbn [fst snd].
    rewrite advance_advance. reflexivity.
Qed.

(** What a call of [print_cwb] does to the state. *)
Lemma print_cwb_run (document : string) tag st :
  print_cwb NLP document tag st =
    let doc := fst (NLP (nlp_state st) document) in
    let ps1 := snd (NLP (nlp_state st) document) in
    let second := nlp_calls NLP ps1 (map sent_text (sents doc)) in
    (Ok tt,
     advance st
       (flat_map (fun d => render tag (tokens d)) (fst second))
       (EvNLP document :: map EvNLP (map sent_text (sents doc)))
       (snd second)).
Proof.
  unfold print_cwb, bind at 1, call_NLP.
  destruct (NLP (nlp_state st) document) as [doc ps1]. cbn [fst snd].
  change (for_each (sents doc) _) with (for_each (sents doc) (sentence_step NLP tag)).
  rewrite sentence_loop. cbv zeta. f_equal.
  unfold with_nlp_state, record, advance. simpl.
  rewrite <- app_assoc. reflexivity.
Qed.

End Emitter.

Lemma length_nlp_calls {PS : Type} (NLP : PS -> string -> Doc * PS)
    (inputs : list string) :
  forall ps, length (fst (nlp_calls NLP ps inputs)) = length inputs.
Proof.
  induction inputs as [|t r IH]; intros ps; [reflexivity|].
  cbn [nlp_calls]. destruct (NLP ps t) as [d ps1].
  specialize (IH ps1). destruct (nlp_calls NLP ps1 r) as [ds ps2].
  cbn [fst length] in *. now rewrite IH.
Qed.

Section EmitterClaims.

Variable PS : Type.
Variable NLP : PS -> string -> Doc * PS.

(** C5, as the code has it. For every text and tag, [print_cwb]
    returns no value and never raises; what it adds to the standard
    output is, for each sentence that the pipeline found in the text, in
    order: the open tag, then one line for each token of the analysis of
    that sentence, made of the surface form, a tab, the part of speech, a
    tab and the lemma, then the close tag, which is the open tag with
    every [<] replaced by [</]; it prints nothing else, on either
    stream. A token line holds three fields between tabs, and one more
    for every tab that the three strings hold themselves. *)
Theorem print_cwb_output (document tag : string) (st : State PS) :
  let first := NLP (nlp_state st) document in
  let analysed :=
    fst (nlp_calls NLP (snd first) (map sent_text (sents (fst first)))) in
  length analysed = length (sents (fst first))
  /\ fst (print_cwb NLP document tag st) = Ok tt
  /\ stdout (snd (print_cwb NLP document tag st)) =
       (stdout st
        ++ flat_map (fun sent =>
             tag
             :: map (fun t =>
                  (text t ++ tab ++ pos_ t ++ tab ++ lemma_ t)%string)
                  (tokens sent)
             ++ [replace "<" "</" tag]) analysed)%list
  /\ stderr (snd (print_cwb NLP document tag st)) = stderr st
  /\ (forall t : Token,
        length (split tab_char (text t ++ tab ++ pos_ t ++ tab ++ lemma_ t))
        = 3 + count_char tab_char (text t) + count_char tab_char (pos_ t)
          + count_char tab_char (lemma_ t))
  /\ replace "<" "</" "<h1>" = "</h1>"
  /\ replace "<" "</" "<s>" = "</s>".
Proof.
  cbv zeta. rewrite print_cwb_run. cbv zeta. cbn [fst snd stdout stderr advance].
  split; [rewrite length_nlp_calls; apply length_map|].
  repeat split.
  intros t. rewrite length_split. unfold tab.
  rewrite !count_char_append. cbn [count_char].
  rewrite !Ascii.eqb_refl. lia.
Qed.

(** C6. For every text, [print_cwb] calls the pipeline once on the whole
    text and then once on the text of each sentence that this first call
    found, in order; the token lines printed for a sentence are those of
    the document returned by the call on the text of that sentence alone,
    and the token objects that the first call attached to the sentence are
    not used. *)
Theorem print_cwb_second_pass (document tag : string) (st : State PS) :
  let first := NLP (nlp_state st) document in
  let texts := map sent_text (sents (fst first)) in
  let second := nlp_calls NLP (snd first) texts in
  log (snd (print_cwb NLP document tag st)) =
    (log st ++ EvNLP document :: map EvNLP texts)%list
  /\ stdout (snd (print_cwb NLP document tag st)) =
       (stdout st
        ++ flat_map (fun d => tag :: map token_line (tokens d)
                                ++ [replace "<" "</" tag]) (fst second))%list
  /\ nlp_state (snd (print_cwb NLP document tag st)) = snd second.
Proof.
  rewrite print_cwb_run. cbv zeta. repeat split.
Qed.

End EmitterClaims.

(** With the test double, the word that opens the second sentence is
    tagged [X] by the pass over the whole text and [INIT] by the pass
    over the sentence alone; the printed line has [INIT]. *)
Example second_pass_is_printed :
  map sent_tokens (sents (Fake.analyse "Uno dos. Tres."))
    = [[mkToken "Uno" "INIT" "Uno"; mkToken "dos." "X" "dos."];
       [mkToken "Tres." "X" "Tres."]]
  /\ stdout (snd (print_cwb Fake.NLP "Uno dos. Tres." "<s>" (initial 0)))
     = ["<s>"; "Uno" ++ tab ++ "INIT" ++ tab ++ "Uno";
               "dos." ++ tab ++ "X" ++ tab ++ "dos."; "</s>";
        "<s>"; "Tres." ++ tab ++ "INIT" ++ tab ++ "Tres."; "</s>"]
  /\ log (snd (print_cwb Fake.NLP "Uno dos. Tres." "<s>" (initial 0)))
     = [EvNLP "Uno dos. Tres."; EvNLP "Uno dos."; EvNLP "Tres."].
Proof. repeat split. Qed.

(** C5, the claim refuted: a line of the file that holds a tab between
    two words is the header of its document, tab included; a pipeline
    that returns the tab as a token makes [print_cwb] print, for that
    token, a line that holds five fields between tabs, not three. *)
Lemma token_line_with_five_fields :
  create_document_list (readlines_of ("uno" ++ tab ++ "dos" ++ nl))
    = Ok [mkDocument ("uno" ++ tab ++ "dos") ""]
  /\ tokens (fst (Fake.tab_NLP 1 ("uno" ++ tab ++ "dos")))
     = [Fake.plain "uno"; Fake.space_token; Fake.plain "dos"]
  /\ stdout (snd (print_cwb Fake.tab_NLP ("uno" ++ tab ++ "dos") "<s>"
                    (initial 0)))
     = ["<s>";
        "uno" ++ tab ++ "X" ++ tab ++ "uno";
        tab ++ tab ++ "SPACE" ++ tab ++ tab;
        "dos" ++ tab ++ "X" ++ tab ++ "dos";
        "</s>"]
  /\ split tab_char (tab ++ tab ++ "SPACE" ++ tab ++ tab)
     = [""; ""; "SPACE"; ""; ""]
  /\ length (split tab_char (tab ++ tab ++ "SPACE" ++ tab ++ tab)) <> 3.
Proof. repeat split. discriminate. Qed.

(** ** Runs that differ in the state of the pipeline *)

Section Determinism.

Variable PS : Type.
Variable NLP : PS -> string -> Doc * PS.
Hypothesis NLP_deterministic : deterministic NLP.

Lemma agree_refl (st : State PS) : agree st st.
Proof. repeat split. Qed.

Lemma steady_ret {A} (a : A) : steady (ret (PS := PS) a).
Proof. intros st1 st2 H. split; [reflexivity | exact H]. Qed.

Lemma steady_raise {A} (e : exn) : steady (raise (PS := PS) (A := A) e).
Proof. intros st1 st2 H. split; [reflexivity | exact H]. Qed.

Lemma steady_lift {A} (r : Result A) : steady (lift (PS := PS) r).
Proof. intros st1 st2 H. split; [reflexivity | exact H]. Qed.

Lemma steady_bind {A B} (c : M PS A) (k : A -> M PS B) :
  steady c -> (forall a, steady (k a)) -> steady (bind c k).
Proof.
  intros Hc Hk st1 st2 H. unfold bind.
  destruct (Hc st1 st2 H) as [R S].
  destruct (c st1) as [r1 s1], (c st2) as [r2 s2]. simpl in R, S. subst r2.
  destruct r1 as [a|e]; [apply Hk; exact S | split; [reflexivity | exact S]].
Qed.

Lemma steady_for_each {A} (l : list A) (body : A -> M PS unit) :
  (forall x, steady (body x)) -> steady (for_each l body).
Proof.
  intros Hb. induction l as [|x l IH]; simpl.
  - apply steady_ret.
  - apply steady_bind; [apply Hb | intros _; exact IH].
Qed.

Lemma steady_try (body : M PS unit)
    (handlers : list ((exn -> bool) * M PS unit)) (fin : M PS unit) :
  steady body -> Forall (fun h => steady (snd h)) handlers -> steady fin ->
  steady (try_except_finally body handlers fin).
Proof.
  intros Hb Hh Hf st1 st2 H. unfold try_except_finally.
  destruct (Hb st1 st2 H) as [R S].
  destruct (body st1) as [r1 s1], (body st2) as [r2 s2]. simpl in R, S. subst r2.
  assert (Mid : forall e,
            match first_match e handlers with
            | Some h => steady h
            | None => True
            end).
  { intros e. induction Hh as [|[m h] hs Hh1 _ IH]; simpl; [exact I|].
    destruct (m e); [exact Hh1 | exact IH]. }
  destruct r1 as [u|e].
  - destruct (Hf s1 s2 S) as [R3 S3].
    destruct (fin s1) as [r3 s3], (fin s2) as [r3' s3']. simpl in R3, S3. subst r3'.
    destruct r3; split; (reflexivity || exact S3).
  - specialize (Mid e). destruct (first_match e handlers) as [h|].
    + destruct (Mid s1 s2 S) as [R2 S2].
      destruct (h s1) as [r2 t1], (h s2) as [r2' t2]. simpl in R2, S2. subst r2'.
      destruct (Hf t1 t2 S2) as [R3 S3].
      destruct (fin t1) as [r3 s3], (fin t2) as [r3' s3']. simpl in R3, S3. subst r3'.
      destruct r3; split; (reflexivity || exact S3).
    + destruct (Hf s1 s2 S) as [R3 S3].
      destruct (fin s1) as [r3 s3], (fin s2) as [r3' s3']. simpl in R3, S3. subst r3'.
      destruct r3; split; (reflexivity || exact S3).
Qed.

(** The primitive effects other than the call of the pipeline. *)
Ltac steady_prim :=
  let st1 := fresh "st" in let st2 := fresh "st" in let H := fresh "H" in
  intros st1 st2 H;
  destruct H as (H1 & H2 & H3 & H4 & H5 & H6);
  unfold agree; simpl; rewrite ?H1, ?H2, ?H3, ?H4, ?H5, ?H6;
  repeat split; auto.

Lemma steady_print (s : string) : steady (print (PS := PS) s).
Proof. unfold print. steady_prim. Qed.

Lemma steady_eprint (s : string) : steady (eprint (PS := PS) s).
Proof. unfold eprint. steady_prim. Qed.

Lemma steady_open (target : Target) (enc : Encoding) :
  steady (open_file (PS := PS) target enc).
Proof.
  unfold open_file. destruct target; [steady_prim|].
  intros st1 st2 H. split; [reflexivity | exact H].
Qed.

Lemma steady_close (h : Handle) : steady (close (PS := PS) h).
Proof. unfold close. steady_prim. Qed.

Lemma steady_set_input_doc (h : Handle) : steady (set_input_doc (PS := PS) h).
Proof. unfold set_input_doc. steady_prim. Qed.

Lemma steady_set_lines (l : list string) : steady (set_lines (PS := PS) l).
Proof. unfold set_lines. steady_prim. Qed.

Lemma steady_set_documents (d : list Document) :
  steady (set_documents (PS := PS) d).
Proof. unfold set_documents. steady_prim. Qed.

Lemma steady_segment (l : list string) : steady (segment (PS := PS) l).
Proof. unfold segment. steady_prim. Qed.

Lemma steady_readlines (target : Target) (h : Handle) :
  steady (readlines (PS := PS) target h).
Proof.
  unfold readlines. destruct target as [f|]; [|apply steady_raise].
  destruct (decoded f (henc h)); [apply steady_ret | apply steady_raise].
Qed.

Lemma steady_use_input_doc : steady (use (PS := PS) "input_doc" input_doc).
Proof.
  intros st1 st2 H. pose proof H as (_ & _ & _ & H4 & _ & _).
  unfold use. rewrite H4. destruct (input_doc st2); split; (reflexivity || exact H).
Qed.

Lemma steady_use_lines : steady (use (PS := PS) "lines" lines).
Proof.
  intros st1 st2 H. pose proof H as (_ & _ & _ & _ & H5 & _).
  unfold use. rewrite H5. destruct (lines st2); split; (reflexivity || exact H).
Qed.

Lemma steady_use_documents : steady (use (PS := PS) "documents" documents).
Proof.
  intros st1 st2 H. pose proof H as (_ & _ & _ & _ & _ & H6).
  unfold use. rewrite H6. destruct (documents st2); split; (reflexivity || exact H).
Qed.

(** The call of the pipeline: this is where the hypothesis is used. *)
Lemma steady_call_NLP (input : string) : steady (call_NLP NLP input).
Proof.
  intros st1 st2 H. unfold call_NLP.
  pose proof (NLP_deterministic (nlp_state st1) (nlp_state st2) input) as D.
  destruct (NLP (nlp_state st1) input) as [d1 p1],
           (NLP (nlp_state st2) input) as [d2 p2].
  simpl in D. subst d2.
  destruct H as (H1 & H2 & H3 & H4 & H5 & H6).
  unfold agree. simpl. rewrite H1, H2, H3, H4, H5, H6. repeat split.
Qed.

Create HintDb steady_db.

#[local] Hint Resolve steady_ret steady_raise steady_lift steady_print steady_eprint
  steady_open steady_close steady_set_input_doc steady_set_lines
  steady_set_documents steady_segment steady_readlines steady_use_input_doc
  steady_use_lines steady_use_documents steady_call_NLP : steady_db.

Ltac steady_step :=
  first [ apply steady_bind; [| intros ? ]
        | apply steady_for_each; intros ?
        | solve [ auto with steady_db ] ].

Lemma steady_print_cwb (document tag : string) :
  steady (print_cwb NLP document tag).
Proof. unfold print_cwb. repeat steady_step. Qed.

Lemma steady_print_header (filename : string) :
  steady (print_header (PS := PS) filename).
Proof. unfold print_header. repeat steady_step. Qed.

Lemma steady_main (filepath : string) (file : File) :
  steady (main NLP filepath file).
Proof.
  unfold main. apply steady_bind; [| intros _; apply steady_bind; [| intros ds]].
  - apply steady_try.
    + repeat steady_step.
    + apply Forall_cons; [cbn [snd]; repeat steady_step |].
      apply Forall_cons; [cbn [snd]; unfold sys_exit; repeat steady_step |].
      apply Forall_nil.
    + repeat steady_step.
  - auto with steady_db.
  - apply steady_for_each. intros doc.
    apply steady_bind; [apply steady_print_header | intros _].
    apply steady_bind; [apply steady_print_cwb | intros _].
    apply steady_bind; [apply steady_print_cwb | intros _].
    apply steady_print.
Qed.

(** C9. For every input file and every deterministic pipeline, two runs
    of the converter on the same file, whatever the states in which the
    pipeline was loaded, end in the same way and produce the same
    standard output. *)
Theorem main_output_deterministic (filepath : string) (file : File)
    (ps ps' : PS) :
  fst (main NLP filepath file (initial ps))
    = fst (main NLP filepath file (initial ps'))
  /\ stdout (snd (main NLP filepath file (initial ps)))
     = stdout (snd (main NLP filepath file (initial ps'))).
Proof.
  assert (A : agree (initial ps) (initial ps')) by (repeat split).
  destruct (steady_main filepath file _ _ A) as [R S].
  split; [exact R | apply S].
Qed.

End Determinism.

Lemma main_output_deterministic_witness :
  fst (main Fake.NLP scenario_path scenario_file (initial 0))
    = fst (main Fake.NLP scenario_path scenario_file (initial 7))
  /\ stdout (snd (main Fake.NLP scenario_path scenario_file (initial 0)))
     = stdout (snd (main Fake.NLP scenario_path scenario_file (initial 7))).
Proof.
  apply (main_output_deterministic nat Fake.NLP).
  intros ps ps' input. reflexivity.
Defined.

(** Without the hypothesis the conclusion fails: the double whose lemmas
    depend on its state prints different lines from different states. *)
Example drifting_pipeline_differs :
  ~ deterministic Fake.drifting_NLP
  /\ stdout (snd (main Fake.drifting_NLP scenario_path scenario_file (initial 0)))
     <> stdout (snd (main Fake.drifting_NLP scenario_path scenario_file (initial 1))).
Proof.
  split.
  - intros D. specialize (D 0 1 "a"). discriminate D.
  - vm_compute. discriminate.
Qed.

(** ** Runs of [main] *)

Lemma text_blocks_app (a b : list string) :
  text_blocks (a ++ b)%list = text_blocks a + text_blocks b.
Proof. unfold text_blocks. now rewrite filter_app, length_app. Qed.

(** A token line holds a tab, so it is not the closing line. *)
Lemma token_line_not_footer (t : Token) :
  String.eqb "</text>" (token_line t) = false.
Proof.
  apply String.eqb_neq. intros E.
  assert (C : count_char tab_char (token_line t) = 0) by (rewrite <- E; reflexivity).
  unfold token_line, tab in C. rewrite !count_char_append in C.
  simpl in C. lia.
Qed.

Lemma text_blocks_render (tag : string) (blocks : list (list Token)) :
  String.eqb "</text>" tag = false ->
  String.eqb "</text>" (replace "<" "</" tag) = false ->
  text_blocks (flat_map (render tag) blocks) = 0.
Proof.
  intros T1 T2. induction blocks as [|b blocks IH]; [reflexivity|].
  cbn [flat_map]. rewrite text_blocks_app, IH, Nat.add_0_r.
  unfold render, text_blocks. cbn [filter]. rewrite T1.
  rewrite filter_app. cbn [filter]. rewrite T2, app_nil_r.
  induction b as [|t b IHb]; [reflexivity|].
  cbn [map filter]. now rewrite token_line_not_footer.
Qed.

Lemma header_line_not_footer (filename : string) :
  String.eqb "</text>" (header_line filename) = false.
Proof. reflexivity. Qed.

(** One document adds one closing line. *)
Lemma text_blocks_text_block (filename : string) (h s : list (list Token)) :
  text_blocks (text_block filename h s) = 1.
Proof.
  unfold text_block.
  change (header_line filename :: ?l)%list with ([header_line filename] ++ l)%list.
  rewrite !text_blocks_app, !text_blocks_render by reflexivity.
  unfold text_blocks. cbn [filter]. rewrite header_line_not_footer. reflexivity.
Qed.

Section Runs.

Variable PS : Type.
Variable NLP : PS -> string -> Doc * PS.

Implicit Types (st : State PS) (filename : string).

Lemma all_nlp_map (texts : list string) :
  forallb is_nlp_event (map EvNLP texts) = true.
Proof. induction texts; simpl; auto. Qed.

(** [print_cwb] adds whole blocks to the output and calls of the
    pipeline to the log. *)
Lemma print_cwb_blocks (document tag : string) st :
  exists blocks evs ps',
    print_cwb NLP document tag st =
      (Ok tt, advance st (flat_map (render tag) blocks) evs ps')
    /\ forallb is_nlp_event evs = true.
Proof.
  rewrite print_cwb_run. cbv zeta.
  set (second := nlp_calls NLP _ _).
  exists (map tokens (fst second)), (EvNLP document
    :: map EvNLP (map sent_text (sents (fst (NLP (nlp_state st) document))))),
    (snd second).
  split.
  - do 2 f_equal.
    generalize (fst second) as ds.
    induction ds as [|d ds IH]; [reflexivity|].
    cbn [map flat_map]. now rewrite IH.
  - cbn [forallb is_nlp_event andb]. apply all_nlp_map.
Qed.

(** One turn of the loop of [main], for a name that [print_header]
    accepts. *)
Lemma doc_step_run filename (doc : Document) st :
  2 <= count_char "_" (take 10 filename) ->
  exists h s evs ps',
    doc_step NLP filename doc st =
      (Ok tt, advance st (text_block filename h s) evs ps')
    /\ forallb is_nlp_event evs = true.
Proof.
  intros V. unfold doc_step, bind at 1. rewrite print_header_cases. cbv zeta.
  destruct (Nat.leb_spec 2 (count_char "_" (take 10 filename))); [|lia].
  fold (header_line filename).
  unfold bind at 1.
  destruct (print_cwb_blocks (header doc) "<h1>" (emit st [header_line filename]))
    as (h & evs1 & ps1 & -> & N1).
  unfold bind at 1.
  destruct (print_cwb_blocks (body doc) "<s>"
              (advance (emit st [header_line filename])
                       (flat_map (render "<h1>") h) evs1 ps1))
    as (s & evs2 & ps2 & -> & N2).
  exists h, s, (evs1 ++ evs2)%list, ps2. split.
  - unfold print_footer, print. f_equal.
    unfold emit, advance, text_block. simpl.
    rewrite <- !app_assoc. reflexivity.
  - rewrite forallb_app, N1, N2. reflexivity.
Qed.

(** One turn of the loop for any name: output and pipeline calls only. *)
Lemma doc_step_any filename (doc : Document) st :
  exists r out evs ps',
    doc_step NLP filename doc st = (r, advance st out evs ps')
    /\ forallb is_nlp_event evs = true.
Proof.
  destruct (Nat.leb_spec 2 (count_char "_" (take 10 filename))) as [V|V].
  - destruct (doc_step_run filename doc st V) as (h & s & evs & ps' & E & N).
    exists (Ok tt), (text_block filename h s), evs, ps'. auto.
  - exists (Raise IndexError), [], [], (nlp_state st). split; [|reflexivity].
    unfold doc_step, bind at 1. rewrite print_header_cases. cbv zeta.
    destruct (Nat.leb_spec 2 (count_char "_" (take 10 filename))); [lia|].
    now rewrite advance_nothing.
Qed.

Lemma doc_loop_any filename (docs : list Document) :
  forall st,
  exists r out evs ps',
    for_each docs (doc_step NLP filename) st = (r, advance st out evs ps')
    /\ forallb is_nlp_event evs = true.
Proof.
  induction docs as [|d docs IH]; intros st.
  - exists (Ok tt), [], [], (nlp_state st). simpl. unfold ret.
    now rewrite advance_nothing.
  - cbn [for_each]. unfold bind at 1.
    destruct (doc_step_any filename d st) as (r & out & evs & ps' & -> & N).
    destruct r as [[]|e].
    + destruct (IH (advance st out evs ps')) as (r2 & out2 & evs2 & ps2 & -> & N2).
      exists r2, (out ++ out2)%list, (evs ++ evs2)%list, ps2.
      rewrite advance_advance, forallb_app, N, N2. auto.
    + exists (Raise e), out, evs, ps'. auto.
Qed.

(** With a name that [print_header] accepts the loop completes, and
    prints one [</text>] line per document. *)
Lemma doc_loop_run filename (docs : list Document) :
  2 <= count_char "_" (take 10 filename) ->
  forall st,
  exists out evs ps',
    for_each docs (doc_step NLP filename) st = (Ok tt, advance st out evs ps')
    /\ text_blocks out = length docs.
Proof.
  intros V. induction docs as [|d docs IH]; intros st.
  - exists [], [], (nlp_state st). simpl. unfold ret.
    now rewrite advance_nothing.
  - cbn [for_each]. unfold bind at 1.
    destruct (doc_step_run filename d st V) as (h & s & evs & ps' & -> & _).
    destruct (IH (advance st (text_block filename h s) evs ps'))
      as (out2 & evs2 & ps2 & -> & T).
    exists (text_block filename h s ++ out2)%list, (evs ++ evs2)%list, ps2.
    rewrite advance_advance, text_blocks_app, text_blocks_text_block, T. auto.
Qed.

(** The file decodes as UTF-8: one handle, closed before the
    segmentation. *)
Lemma main_primary (filepath content : string) (c : option string)
    (docs : list Document) (ps : PS) :
  create_document_list (readlines_of content) = Ok docs ->
  main NLP filepath (mkFile (Some content) c) (initial ps) =
    for_each docs (doc_step NLP (last_item (split "/" filepath)))
      (mkState [] [] [EvOpen h0; EvClose h0; EvSegment] ps
               (Some h0) (Some (readlines_of content)) (Some docs)).
Proof.
  intros E. unfold main, bind at 1, try_except_finally.
  unfold bind, open_file, set_input_doc, use, readlines, set_lines, close,
    segment, set_documents, ret, record, initial. cbn -[split last_item for_each readlines_of create_document_list].
  rewrite E. reflexivity.
Qed.

(** The file decodes as Windows-1252 only: two handles are opened; the
    first is released when [input_doc] is bound anew, the second is
    closed by [finally]. *)
Lemma main_fallback (filepath content : string) (docs : list Document) (ps : PS) :
  create_document_list (readlines_of content) = Ok docs ->
  main NLP filepath (mkFile None (Some content)) (initial ps) =
    for_each docs (doc_step NLP (last_item (split "/" filepath)))
      (mkState [] [] [EvOpen h0; EvOpen h1; EvRelease h0; EvClose h1; EvSegment] ps
               (Some h1) (Some (readlines_of content)) (Some docs)).
Proof.
  intros E. unfold main, bind at 1, try_except_finally.
  unfold bind, open_file, set_input_doc, use, readlines, set_lines, close,
    segment, set_documents, ret, raise, record, initial.
  cbn -[split last_item for_each readlines_of create_document_list].
  rewrite E. reflexivity.
Qed.

(** Events of the pipeline do not change which handles are open. *)
Lemma open_handles_nlp (evs : list Event) :
  forallb is_nlp_event evs = true ->
  forall acc, open_handles evs acc = acc.
Proof.
  induction evs as [|e evs IH]; intros N acc; [reflexivity|].
  cbn [forallb] in N. apply andb_prop in N as [Ne N].
  destruct e; try discriminate Ne. simpl. now apply IH.
Qed.

Lemma open_handles_app (l evs : list Event) :
  forallb is_nlp_event evs = true ->
  forall acc, open_handles (l ++ evs) acc = open_handles l acc.
Proof.
  intros N. induction l as [|e l IH]; intros acc.
  - simpl. now apply open_handles_nlp.
  - destruct e; simpl; apply IH.
Qed.

(** [print_cwb] in terms of [cwb_lines] and [cwb_events]. *)
Lemma print_cwb_exact (document tag : string) st :
  print_cwb NLP document tag st =
    (Ok tt,
     advance st (fst (cwb_lines NLP (nlp_state st) document tag))
             (cwb_events NLP (nlp_state st) document)
             (snd (cwb_lines NLP (nlp_state st) document tag))).
Proof. rewrite print_cwb_run. reflexivity. Qed.

(** One turn of the loop of [main], in full. *)
Lemma doc_step_exact filename (doc : Document) st :
  2 <= count_char "_" (take 10 filename) ->
  doc_step NLP filename doc st =
    let a := cwb_lines NLP (nlp_state st) (header doc) "<h1>" in
    let b := cwb_lines NLP (snd a) (body doc) "<s>" in
    (Ok tt,
     advance st
       (header_line filename :: fst a ++ fst b ++ ["</text>"])
       (cwb_events NLP (nlp_state st) (header doc)
        ++ cwb_events NLP (snd a) (body doc))
       (snd b)).
Proof.
  intros V. unfold doc_step, bind at 1. rewrite print_header_cases. cbv zeta.
  destruct (Nat.leb_spec 2 (count_char "_" (take 10 filename))); [|lia].
  fold (header_line filename).
  unfold bind at 1. rewrite print_cwb_exact.
  unfold bind at 1. rewrite print_cwb_exact.
  unfold print_footer, print. f_equal.
  unfold emit, advance. simpl. rewrite <- !app_assoc. reflexivity.
Qed.

(** The file decodes under neither encoding: the exception of the first
    [except] clause is not caught by the second, and [finally] then
    finds [lines] unbound. *)
Lemma main_undecodable (filepath : string) (ps : PS) :
  main NLP filepath (mkFile None None) (initial ps) =
    (Raise (UnboundLocalError "lines"),
     mkState [] [] [EvOpen h0; EvOpen h1; EvRelease h0; EvClose h1] ps (Some h1) None None).
Proof. reflexivity. Qed.

End Runs.

Section RunClaims.

Variable PS : Type.
Variable NLP : PS -> string -> Doc * PS.

(** The run of the scenario, in full. *)
Lemma scenario_run (ps : PS) :
  let a := cwb_lines NLP ps "Headline Text" "<h1>" in
  let b := cwb_lines NLP (snd a) "" "<s>" in
  let c := cwb_lines NLP (snd b) "Body line one. Body line two." "<h1>" in
  let d := cwb_lines NLP (snd c) "" "<s>" in
  main NLP scenario_path scenario_file (initial ps) =
    (Ok tt,
     mkState
       ((scenario_tag :: fst a ++ fst b ++ ["</text>"])
        ++ (scenario_tag :: fst c ++ fst d ++ ["</text>"]))
       []
       ([EvOpen h0; EvClose h0; EvSegment]
        ++ (cwb_events NLP ps "Headline Text" ++ cwb_events NLP (snd a) "")
        ++ (cwb_events NLP (snd b) "Body line one. Body line two."
            ++ cwb_events NLP (snd c) ""))
       (snd d)
       (Some h0)
       (Some ["Headline Text" ++ nl; nl; "Body line one. Body line two." ++ nl])
       (Some [mkDocument "Headline Text" "";
              mkDocument "Body line one. Body line two." ""])).
Proof.
  cbv zeta. unfold scenario_file.
  rewrite (main_primary PS NLP scenario_path scenario_content _
             [mkDocument "Headline Text" "";
              mkDocument "Body line one. Body line two." ""])
    by reflexivity.
  change (last_item (split "/" scenario_path)) with "2017_11_03_example-text.txt".
  cbn [for_each]. unfold bind at 1.
  rewrite doc_step_exact by (vm_compute; lia).
  unfold bind at 1.
  rewrite doc_step_exact by (vm_compute; lia).
  unfold ret. reflexivity.
Qed.

Lemma text_blocks_cwb_lines (ps : PS) (document tag : string) :
  String.eqb "</text>" tag = false ->
  String.eqb "</text>" (replace "<" "</" tag) = false ->
  text_blocks (fst (cwb_lines NLP ps document tag)) = 0.
Proof.
  intros T1 T2. unfold cwb_lines. cbn [fst].
  generalize (fst (nlp_calls NLP (snd (NLP ps document))
                     (map sent_text (sents (fst (NLP ps document)))))) as ds.
  intros ds.
  replace (flat_map (fun d => render tag (tokens d)) ds)
    with (flat_map (render tag) (map tokens ds)).
  - now apply text_blocks_render.
  - induction ds as [|d ds IH]; [reflexivity|]. cbn [map flat_map]. now rewrite IH.
Qed.

Lemma scenario_text_blocks (ps : PS) :
  text_blocks (stdout (snd (main NLP scenario_path scenario_file (initial ps)))) = 2.
Proof.
  rewrite scenario_run. cbn [snd stdout].
  change (scenario_tag :: ?l)%list with ([scenario_tag] ++ l)%list.
  rewrite !text_blocks_app, !text_blocks_cwb_lines by reflexivity.
  reflexivity.
Qed.

(** C2, as the code has it. For the file [2017_11_03_example-text.txt]
    with the line [Headline Text], a blank line and the line
    [Body line one. Body line two.], the segmenter returns two documents,
    both with an empty body, and the program prints two text blocks, each
    opened by the tag of the scenario: the first holds the sentences of
    [Headline Text] under [<h1>], the second holds the sentences of
    [Body line one. Body line two.] under [<h1>] as well; under [<s>]
    comes only what the pipeline makes of the empty string. *)
Theorem scenario_two_text_blocks (ps : PS) :
  let run := main NLP scenario_path scenario_file (initial ps) in
  let a := cwb_lines NLP ps "Headline Text" "<h1>" in
  let b := cwb_lines NLP (snd a) "" "<s>" in
  let c := cwb_lines NLP (snd b) "Body line one. Body line two." "<h1>" in
  let d := cwb_lines NLP (snd c) "" "<s>" in
  fst run = Ok tt
  /\ documents (snd run) =
       Some [mkDocument "Headline Text" "";
             mkDocument "Body line one. Body line two." ""]
  /\ stdout (snd run) =
       ([scenario_tag] ++ fst a ++ fst b ++ ["</text>"]
        ++ [scenario_tag] ++ fst c ++ fst d ++ ["</text>"])%list
  /\ text_blocks (stdout (snd run)) = 2.
Proof.
  cbv zeta. rewrite scenario_text_blocks, scenario_run. cbn [fst snd stdout documents].
  repeat split. cbn [app]. rewrite <- !app_assoc. reflexivity.
Qed.

(** C3, the code against the claim. For a file that decodes under
    neither encoding, the second read raises inside the first [except]
    clause, the second clause does not run, and [finally] raises
    [UnboundLocalError] at [lines]: no diagnostic line is printed by the
    program on either stream, and the process ends on the exception that
    is not caught (status 1, by the interpreter). *)
Theorem undecodable_file_no_diagnostic (filepath : string) (ps : PS) :
  let run := main NLP filepath (mkFile None None) (initial ps) in
  fst run = Raise (UnboundLocalError "lines")
  /\ fst run <> Raise (SystemExit 1)
  /\ stderr (snd run) = []
  /\ stdout (snd run) = []
  /\ exit_status (fst run) = 1.
Proof.
  cbv zeta. rewrite main_undecodable. cbn [fst snd stderr stdout exit_status].
  repeat split. discriminate.
Qed.

(** A file that decodes under one of the two encodings, with a name
    that [print_header] accepts: [main] returns, the exit status is 0,
    nothing goes to the error stream, and there is one [</text>] line per
    document of the segmenter. *)
Lemma decodable_file_exit_zero (filepath : string) (file : File) (ps : PS) :
  2 <= count_char "_" (take 10 (last_item (split "/" filepath))) ->
  forall content,
  as_utf_8 file = Some content
  \/ (as_utf_8 file = None /\ as_cp1252 file = Some content) ->
  let run := main NLP filepath file (initial ps) in
  exit_status (fst run) = 0
  /\ stderr (snd run) = []
  /\ exists docs, create_document_list (readlines_of content) = Ok docs
       /\ text_blocks (stdout (snd run)) = length docs.
Proof.
  intros V content D. cbv zeta.
  destruct (create_document_list_total (readlines_of content)) as [docs [E _]].
  destruct file as [u c]. simpl in D.
  destruct D as [-> | [-> ->]].
  - rewrite (main_primary PS NLP filepath content c docs ps E).
    destruct (doc_loop_run PS NLP _ docs V
                (mkState [] [] [EvOpen h0; EvClose h0; EvSegment] ps
                   (Some h0) (Some (readlines_of content)) (Some docs)))
      as (out & evs & ps' & -> & T).
    cbn [fst snd exit_status stderr stdout advance app]. eauto.
  - rewrite (main_fallback PS NLP filepath content docs ps E).
    destruct (doc_loop_run PS NLP _ docs V
                (mkState [] [] [EvOpen h0; EvOpen h1; EvRelease h0; EvClose h1; EvSegment] ps
                   (Some h1) (Some (readlines_of content)) (Some docs)))
      as (out & evs & ps' & -> & T).
    cbn [fst snd exit_status stderr stdout advance app]. eauto.
Qed.

(** X16. The read as UTF-8 succeeds: the one handle is closed when the
    segmentation starts, and no handle is open at the end. *)
Lemma primary_read_closes_handle (filepath content : string)
    (c : option string) (ps : PS) :
  let run := main NLP filepath (mkFile (Some content) c) (initial ps) in
  open_at_work (log (snd run)) [] = Some []
  /\ open_handles (log (snd run)) [] = [].
Proof.
  cbv zeta.
  destruct (create_document_list_total (readlines_of content)) as [docs [E _]].
  rewrite (main_primary PS NLP filepath content c docs ps E).
  destruct (doc_loop_any PS NLP (last_item (split "/" filepath)) docs
              (mkState [] [] [EvOpen h0; EvClose h0; EvSegment] ps
                 (Some h0) (Some (readlines_of content)) (Some docs)))
    as (r & out & evs & ps' & -> & N).
  cbn [snd log advance]. split; [reflexivity|].
  now rewrite open_handles_app.
Qed.

End RunClaims.

(** C2, the claim refuted: whatever the pipeline, the output for the
    file of the scenario does not hold exactly one [</text>] line. *)
Lemma scenario_not_one_text_block :
  ~ (exists (NLP : nat -> string -> Doc * nat) (ps : nat),
        text_blocks
          (stdout (snd (main NLP scenario_path scenario_file (initial ps)))) = 1).
Proof.
  intros (NLP & ps & H). rewrite scenario_text_blocks in H. discriminate.
Qed.

(** The output of the scenario with the test double. *)
Example scenario_with_double :
  stdout (snd (main Fake.NLP scenario_path scenario_file (initial 0))) =
    [scenario_tag;
     "<h1>"; "Headline" ++ tab ++ "INIT" ++ tab ++ "Headline";
             "Text" ++ tab ++ "X" ++ tab ++ "Text"; "</h1>";
     "</text>";
     scenario_tag;
     "<h1>"; "Body" ++ tab ++ "INIT" ++ tab ++ "Body";
             "line" ++ tab ++ "X" ++ tab ++ "line";
             "one." ++ tab ++ "X" ++ tab ++ "one."; "</h1>";
     "<h1>"; "Body" ++ tab ++ "INIT" ++ tab ++ "Body";
             "line" ++ tab ++ "X" ++ tab ++ "line";
             "two." ++ tab ++ "X" ++ tab ++ "two."; "</h1>";
     "</text>"].
Proof. reflexivity. Qed.

(** The text of the scenario without the blank line, a headline with
    its body in one block, gives the one text block that the scenario
    expects. *)
Example scenario_without_blank_line :
  stdout (snd (main Fake.NLP scenario_path
                 (mkFile (Some ("Headline Text" ++ nl
                                ++ "Body line one. Body line two." ++ nl)) None)
                 (initial 0))) =
    [scenario_tag;
     "<h1>"; "Headline" ++ tab ++ "INIT" ++ tab ++ "Headline";
             "Text" ++ tab ++ "X" ++ tab ++ "Text"; "</h1>";
     "<s>"; "Body" ++ tab ++ "INIT" ++ tab ++ "Body";
            "line" ++ tab ++ "X" ++ tab ++ "line";
            "one." ++ tab ++ "X" ++ tab ++ "one."; "</s>";
     "<s>"; "Body" ++ tab ++ "INIT" ++ tab ++ "Body";
            "line" ++ tab ++ "X" ++ tab ++ "line";
            "two." ++ tab ++ "X" ++ tab ++ "two."; "</s>";
     "</text>"].
Proof. reflexivity. Qed.

(** A file in Windows-1252 that is not valid UTF-8, with the test
    double: the log of the run. *)
Example fallback_log :
  log (snd (main Fake.NLP "2020_01_02_x.txt"
              (mkFile None (Some ("caf" ++ String (ascii_of_nat 233) "" ++ nl)))
              (initial 0))) =
    [EvOpen h0; EvOpen h1; EvRelease h0; EvClose h1; EvSegment;
     EvNLP ("caf" ++ String (ascii_of_nat 233) "");
     EvNLP ("caf" ++ String (ascii_of_nat 233) ""); EvNLP ""].
Proof. reflexivity. Qed.

(** X15. Splitting a printed token line at the tabs gives back the
    surface form, the part of speech and the lemma, when none of the
    three holds a tab. *)
Lemma token_line_fields (t : Token) :
  count_char tab_char (text t) = 0 ->
  count_char tab_char (pos_ t) = 0 ->
  count_char tab_char (lemma_ t) = 0 ->
  split tab_char (token_line t) = [text t; pos_ t; lemma_ t].
Proof.
  intros T P L. unfold token_line, tab. cbn [append].
  rewrite split_append by exact T.
  rewrite split_append by exact P.
  now rewrite split_without.
Qed.

(* ================================================================= *)
(** * Further properties of the segmenter *)

Lemma last_item_cons (x y : string) (r : list string) :
  last_item (x :: y :: r) = last_item (y :: r).
Proof. reflexivity. Qed.

(** The loop cuts what it is given after every line on which its test
    holds. [pre] are the lines already in the buffer. *)
Lemma segment_loop_blocks (lastline : string) (rest : list string) :
  forall (pre : list string) (docs : list Document),
  Forall (fun x => is_boundary lastline x = false) pre ->
  (rest <> [] -> is_boundary lastline (last_item rest) = true) ->
  (rest = [] -> pre = []) ->
  exists blocks more,
    concat blocks = (pre ++ rest)%list
    /\ Forall (fun b => exists block l,
                 b = (block ++ [l])%list
                 /\ Forall (fun x => is_boundary lastline x = false) block
                 /\ is_boundary lastline l = true) blocks
    /\ Forall2 (fun b d => create_document (map rstrip b) = Ok d) blocks more
    /\ segment_loop lastline (map rstrip pre) docs rest = Ok (docs ++ more)%list.
Proof.
  induction rest as [|x rest IH]; intros pre docs NB LB EM.
  - rewrite (EM eq_refl). exists [], []. cbn [segment_loop map concat app].
    rewrite app_nil_r. repeat split; constructor.
  - cbn [segment_loop]. destruct (is_boundary lastline x) eqn:Bx.
    + destruct (create_document_snoc (map rstrip pre) (rstrip x)) as [d Ed].
      rewrite Ed.
      destruct (IH [] (docs ++ [d])%list) as (blocks & more & C & W & F & E).
      * constructor.
      * intros NE. specialize (LB ltac:(discriminate)).
        destruct rest as [|y r]; [contradiction|]. exact LB.
      * reflexivity.
      * exists ((pre ++ [x])%list :: blocks), (d :: more).
        cbn [concat]. rewrite C. cbn [app]. rewrite <- app_assoc. cbn [app].
        split; [reflexivity|]. split.
        { constructor; [|exact W]. exists pre, x. auto. }
        split.
        { constructor; [|exact F]. rewrite map_app. exact Ed. }
        cbn [map] in E. rewrite E, <- app_assoc. reflexivity.
    + destruct (IH (pre ++ [x])%list docs) as (blocks & more & C & W & F & E).
      * apply Forall_app. split; [exact NB|]. constructor; [exact Bx|constructor].
      * intros NE. specialize (LB ltac:(discriminate)).
        destruct rest as [|y r]; [contradiction|]. exact LB.
      * intros ->. specialize (LB ltac:(discriminate)).
        unfold last_item in LB. cbn in LB. congruence.
      * exists blocks, more. rewrite C, <- app_assoc. cbn [app].
        split; [reflexivity|]. split; [exact W|]. split; [exact F|].
        rewrite map_app in E. exact E.
Qed.

Lemma is_boundary_last (l : string) : is_boundary l l = true.
Proof. unfold is_boundary. now rewrite String.eqb_refl, orb_true_r. Qed.

(** X1. [create_document_list] cuts the file after every line on which
    the test of its loop holds: the lines of the file are the
    concatenation, in order, of blocks that each end with such a line and
    hold no other, and the documents returned are, in the same order,
    what [create_document] makes of the right-trimmed lines of each
    block. No line is lost, none is used twice, and the call never
    raises. *)
Theorem create_document_list_blocks (lines_of_file : list string) :
  exists blocks docs,
    concat blocks = lines_of_file
    /\ Forall (fun b => exists block l,
                 b = (block ++ [l])%list
                 /\ Forall (fun x =>
                      is_boundary (last_item lines_of_file) x = false) block
                 /\ is_boundary (last_item lines_of_file) l = true) blocks
    /\ Forall2 (fun b d => create_document (map rstrip b) = Ok d) blocks docs
    /\ create_document_list lines_of_file = Ok docs.
Proof.
  destruct (segment_loop_blocks (last_item lines_of_file) lines_of_file [] [])
    as (blocks & more & C & W & F & E).
  - constructor.
  - intros _. apply is_boundary_last.
  - intros ->. reflexivity.
  - exists blocks, more. auto.
Qed.

Lemma count_true_le (l : list bool) : count_true l <= length l.
Proof. unfold count_true. apply filter_length_le. Qed.

Lemma boundary_flags_last (lines_of_file : list string) :
  lines_of_file <> [] -> 1 <= count_true (boundary_flags lines_of_file).
Proof.
  intros NE. unfold boundary_flags.
  destruct (@exists_last _ lines_of_file NE) as (pre & x & E).
  rewrite E at 2. rewrite map_app, count_true_app.
  assert (L : last_item lines_of_file = x)
    by (rewrite E; unfold last_item; apply last_last).
  rewrite L. cbn [map]. rewrite count_true_cons, is_boundary_last. lia.
Qed.

(** X2. [create_document_list] returns on every list of lines; the
    number of documents is the number of lines on which the test of the
    loop holds, it is at most the number of lines, and it is zero for the
    empty file and for no other. *)
Theorem create_document_list_count (lines_of_file : list string) :
  exists docs,
    create_document_list lines_of_file = Ok docs
    /\ length docs = count_true (boundary_flags lines_of_file)
    /\ length docs <= length lines_of_file
    /\ (length docs = 0 <-> lines_of_file = []).
Proof.
  destruct (create_document_list_total lines_of_file) as (docs & E & L).
  exists docs. split; [exact E|]. split; [exact L|]. split.
  - rewrite L. unfold boundary_flags.
    rewrite <- (length_map (is_boundary (last_item lines_of_file)) lines_of_file).
    apply count_true_le.
  - split.
    + intros Z. destruct lines_of_file as [|x r]; [reflexivity|].
      pose proof (boundary_flags_last (x :: r) ltac:(discriminate)). lia.
    + intros ->. rewrite L. reflexivity.
Qed.

(** X3. A blank line that comes first in the file, or directly after a
    line that triggered a flush, is flushed alone: it gives a document
    whose header and body are both empty. *)
Theorem blank_line_alone_gives_empty_document
    (before after : list string) :
  let lines_of_file := (before ++ nl :: after)%list in
  let lastline := last_item lines_of_file in
  before = [] \/ is_boundary lastline (last_item before) = true ->
  exists docs1 docs2,
    create_document_list lines_of_file
      = Ok (docs1 ++ mkDocument "" "" :: docs2)%list
    /\ length docs1 = count_true (map (is_boundary lastline) before).
Proof.
  intros lines_of_file lastline HB.
  assert (P : exists docs1,
             segment_loop lastline [] [] lines_of_file =
               segment_loop lastline [] docs1 (nl :: after)
             /\ length docs1 = count_true (map (is_boundary lastline) before)).
  { destruct HB as [-> | HB].
    - exists []. split; reflexivity.
    - destruct before as [|b0 bs].
      + exists []. split; reflexivity.
      + destruct (@exists_last _ (b0 :: bs)) as [pre [x Epre]]; [discriminate|].
        rewrite Epre in HB. unfold last_item in HB. rewrite last_last in HB.
        destruct (segment_loop_closed_prefix lastline pre [] [] x
                    (nl :: after) HB) as [docs1 [E L]].
        exists docs1. unfold lines_of_file. rewrite Epre. split; [exact E|exact L]. }
  destruct P as (docs1 & E1 & L1).
  destruct (segment_loop_total lastline after [] (docs1 ++ [mkDocument "" ""])%list)
    as (docs2 & E2 & _).
  exists docs1, docs2. split; [|exact L1].
  unfold create_document_list. fold lines_of_file. fold lastline.
  rewrite E1. cbn [segment_loop].
  replace (is_boundary lastline nl) with true
    by (unfold is_boundary; now rewrite String.eqb_refl).
  cbn [app]. rewrite rstrip_nl.
  change (create_document [""]) with (Ok (mkDocument "" "")).
  cbv beta iota. rewrite E2, <- app_assoc. reflexivity.
Qed.

Lemma blank_line_alone_gives_empty_document_witness :
  exists docs1 docs2,
    create_document_list
      ((["h" ++ nl; nl])%string ++ nl :: (["x" ++ nl])%string)%list
      = Ok (docs1 ++ mkDocument "" "" :: docs2)%list
    /\ length docs1 =
       count_true (map (is_boundary ("x" ++ nl)) ["h" ++ nl; nl]).
Proof.
  apply (blank_line_alone_gives_empty_document ["h" ++ nl; nl] ["x" ++ nl]).
  right. reflexivity.
Defined.

Lemma boundary_flags_positional_witness :
  boundary_flags ["a" ++ nl; nl; "b" ++ nl; nl]
  = spec_boundary_flags ["a" ++ nl; nl; "b" ++ nl; nl].
Proof.
  apply boundary_flags_positional.
  intros x HIn E. exact E.
Defined.

(** ** What the documents of a text file hold *)

Lemma count_char_rstrip_le (c : ascii) (s : string) :
  count_char c (rstrip s) <= count_char c s.
Proof.
  induction s as [|x s IH]; [apply Nat.le_refl|].
  cbn [rstrip count_char]. destruct (rstrip s) as [|y r].
  - destruct (is_space x); cbn [count_char]; lia.
  - cbn [count_char] in *. lia.
Qed.

Lemma rstrip_snoc_space (s : string) (c : ascii) :
  is_space c = true -> rstrip (s ++ String c "") = rstrip s.
Proof.
  intros Sc. induction s as [|x s IH].
  - cbn. now rewrite Sc.
  - cbn [append rstrip]. now rewrite IH.
Qed.

Lemma rstrip_idempotent (s : string) : rstrip (rstrip s) = rstrip s.
Proof.
  induction s as [|x s IH]; [reflexivity|].
  cbn [rstrip]. destruct (rstrip s) as [|y r] eqn:E.
  - destruct (is_space x) eqn:Sx; [reflexivity|]. cbn. now rewrite Sx.
  - cbn [rstrip]. cbn [rstrip] in IH.
    destruct (match rstrip r with
              | "" => if is_space y then "" else String y ""
              | String a s0 => String y (String a s0)
              end) eqn:M; [discriminate IH|].
    now rewrite <- IH.
Qed.

Lemma readlines_of_lines (content : string) :
  Forall one_line (readlines_of content).
Proof.
  induction content as [|c s IH]; [constructor|].
  cbn [readlines_of]. destruct (Ascii.eqb_spec c nl_char) as [->|N].
  - constructor; [|exact IH]. right. exists "". split; reflexivity.
  - destruct (readlines_of s) as [|l ls].
    + constructor; [|constructor]. left. cbn [count_char].
      destruct (Ascii.eqb_spec c nl_char); [contradiction|reflexivity].
    + inversion IH as [|? ? Hl Hls]; subst. constructor; [|exact Hls].
      destruct Hl as [Z | (t & -> & Z)].
      * left. cbn [count_char].
        destruct (Ascii.eqb_spec c nl_char); [contradiction|exact Z].
      * right. exists (String c t). split; [reflexivity|].
        cbn [count_char].
        destruct (Ascii.eqb_spec c nl_char); [contradiction|exact Z].
Qed.

Lemma rstrip_one_line (l : string) :
  one_line l -> count_char nl_char (rstrip l) = 0.
Proof.
  intros [Z | (s & -> & Z)].
  - pose proof (count_char_rstrip_le nl_char l). lia.
  - unfold nl. rewrite rstrip_snoc_space by reflexivity.
    pose proof (count_char_rstrip_le nl_char s). lia.
Qed.

Lemma count_char_join (c : ascii) (l : list string) :
  count_char c " " = 0 ->
  Forall (fun p => count_char c p = 0) l ->
  count_char c (join " " l) = 0.
Proof.
  intros Sp F. induction F as [|p l Hp F IH]; [reflexivity|].
  destruct l as [|q r]; [exact Hp|].
  rewrite join_cons2, !count_char_append, Hp, Sp, IH. reflexivity.
Qed.

Lemma create_document_single_line (buf : list string) (d : Document) :
  Forall trimmed_piece buf -> create_document buf = Ok d ->
  single_line_document d.
Proof.
  intros F E. destruct buf as [|h t]; [discriminate E|].
  rewrite create_document_cons in E. injection E as <-.
  inversion F as [|? ? [Hh Hr] Ht]; subst.
  repeat split; cbn [header body]; try assumption.
  apply count_char_join; [reflexivity|].
  eapply Forall_impl; [|exact Ht]. intros p [Z _]. exact Z.
Qed.

Lemma segment_loop_single_line (lastline : string) (rest : list string) :
  forall buf docs out,
  Forall one_line rest -> Forall trimmed_piece buf ->
  Forall single_line_document docs ->
  segment_loop lastline buf docs rest = Ok out ->
  Forall single_line_document out.
Proof.
  induction rest as [|x rest IH]; intros buf docs out HL HB HD E.
  - cbn in E. injection E as <-. exact HD.
  - inversion HL as [|? ? Hx Hrest]; subst.
    assert (HB' : Forall trimmed_piece (buf ++ [rstrip x])%list).
    { apply Forall_app. split; [exact HB|]. constructor; [|constructor].
      split; [now apply rstrip_one_line | apply rstrip_idempotent]. }
    cbn [segment_loop] in E. destruct (is_boundary lastline x).
    + destruct (create_document (buf ++ [rstrip x])%list) as [d|e] eqn:Ed;
        [|discriminate E].
      apply (IH [] (docs ++ [d])%list out Hrest); [constructor | | exact E].
      apply Forall_app. split; [exact HD|]. constructor; [|constructor].
      now apply (create_document_single_line (buf ++ [rstrip x])%list).
    + now apply (IH (buf ++ [rstrip x])%list docs out Hrest).
Qed.

(** X4. For the lines of any text as [readlines] returns them,
    [create_document_list] returns documents whose header and body hold
    no newline character and whose header is right-trimmed: each header
    and each body is a single line of text. *)
Theorem documents_of_text_are_single_lines (content : string) :
  exists docs,
    create_document_list (readlines_of content) = Ok docs
    /\ Forall (fun d =>
         count_char nl_char (header d) = 0
         /\ count_char nl_char (body d) = 0
         /\ rstrip (header d) = header d) docs.
Proof.
  destruct (create_document_list_total (readlines_of content)) as (docs & E & _).
  exists docs. split; [exact E|].
  apply (segment_loop_single_line (last_item (readlines_of content))
           (readlines_of content) [] [] docs);
    [apply readlines_of_lines | constructor | constructor | exact E].
Qed.

(** ** Further properties of [print_cwb] *)

Lemma occurrences_app (s : string) (a b : list string) :
  occurrences s (a ++ b)%list = occurrences s a + occurrences s b.
Proof. unfold occurrences. now rewrite filter_app, length_app. Qed.

Lemma count_char_replace_other (c old : ascii) (new s : string) :
  Ascii.eqb old c = false -> count_char c new = 0 ->
  count_char c (replace old new s) = count_char c s.
Proof.
  intros N Z. induction s as [|x s IH]; [reflexivity|].
  cbn [replace count_char]. destruct (Ascii.eqb_spec x old) as [->|D].
  - rewrite count_char_append, Z, IH, N. reflexivity.
  - cbn [count_char]. now rewrite IH.
Qed.

(** A token line is not a line without tab. *)
Lemma token_line_not (s : string) (t : Token) :
  count_char tab_char s = 0 -> String.eqb s (token_line t) = false.
Proof.
  intros Z. apply String.eqb_neq. intros E.
  rewrite E in Z. unfold token_line, tab in Z.
  rewrite !count_char_append in Z. cbn in Z. lia.
Qed.

Lemma occurrences_token_lines (s : string) (toks : list Token) :
  count_char tab_char s = 0 -> occurrences s (map token_line toks) = 0.
Proof.
  intros Z. induction toks as [|t toks IH]; [reflexivity|].
  unfold occurrences in *. cbn [map filter].
  now rewrite token_line_not.
Qed.

Section EmitterMore.

Variable PS : Type.
Variable NLP : PS -> string -> Doc * PS.

(** X5. When the tag holds no tab and differs from its close tag,
    [print_cwb] adds to the output exactly as many lines equal to the
    tag as the pipeline found sentences in the text, and as many lines
    equal to the close tag: every sentence is opened once and closed
    once, and no token line can be taken for a tag. *)
Theorem print_cwb_balanced_tags (document tag : string) (st : State PS) :
  count_char tab_char tag = 0 ->
  replace "<" "</" tag <> tag ->
  exists out,
    stdout (snd (print_cwb NLP document tag st)) = (stdout st ++ out)%list
    /\ occurrences tag out
       = length (sents (fst (NLP (nlp_state st) document)))
    /\ occurrences (replace "<" "</" tag) out
       = length (sents (fst (NLP (nlp_state st) document))).
Proof.
  intros NT NC. rewrite print_cwb_run. cbv zeta. cbn [snd stdout advance].
  set (doc := fst (NLP (nlp_state st) document)).
  set (ps1 := snd (NLP (nlp_state st) document)).
  eexists. split; [reflexivity|].
  rewrite <- (length_map sent_text (sents doc)).
  rewrite <- (length_nlp_calls NLP (map sent_text (sents doc)) ps1).
  generalize (fst (nlp_calls NLP ps1 (map sent_text (sents doc)))) as ds.
  assert (CT : count_char tab_char (replace "<" "</" tag) = 0)
    by (rewrite count_char_replace_other; [exact NT | reflexivity | reflexivity]).
  assert (D1 : String.eqb tag (replace "<" "</" tag) = false)
    by (apply String.eqb_neq; congruence).
  assert (D2 : String.eqb (replace "<" "</" tag) tag = false)
    by (apply String.eqb_neq; exact NC).
  induction ds as [|d ds [I1 I2]]; [split; reflexivity|].
  cbn [flat_map length]. rewrite !occurrences_app, I1, I2.
  unfold render.
  change (tag :: ?l)%list with ([tag] ++ l)%list.
  rewrite !occurrences_app, !occurrences_token_lines by assumption.
  unfold occurrences. cbn [filter].
  rewrite !String.eqb_refl, D1, D2. split; reflexivity.
Qed.

(** X6. When the pipeline finds no sentence in the text, [print_cwb]
    prints nothing, not even an empty pair of tags; it has called the
    pipeline once, on the text. *)
Theorem print_cwb_without_sentences (document tag : string) (st : State PS) :
  sents (fst (NLP (nlp_state st) document)) = [] ->
  print_cwb NLP document tag st =
    (Ok tt,
     advance st [] [EvNLP document] (snd (NLP (nlp_state st) document))).
Proof.
  intros E. rewrite print_cwb_run. cbv zeta. rewrite E. reflexivity.
Qed.

End EmitterMore.

Lemma print_cwb_balanced_tags_witness :
  exists out,
    stdout (snd (print_cwb Fake.NLP "Uno dos. Tres." "<s>" (initial 0)))
      = (stdout (initial 0) ++ out)%list
    /\ occurrences "<s>" out
       = length (sents (fst (Fake.NLP (nlp_state (initial 0)) "Uno dos. Tres.")))
    /\ occurrences (replace "<" "</" "<s>") out
       = length (sents (fst (Fake.NLP (nlp_state (initial 0)) "Uno dos. Tres."))).
Proof.
  apply (print_cwb_balanced_tags nat Fake.NLP "Uno dos. Tres." "<s>" (initial 0)).
  - reflexivity.
  - discriminate.
Defined.

Lemma print_cwb_without_sentences_witness :
  print_cwb Fake.NLP "" "<s>" (initial 0) =
    (Ok tt,
     advance (initial 0) [] [EvNLP ""]
             (snd (Fake.NLP (nlp_state (initial 0)) ""))).
Proof.
  apply (print_cwb_without_sentences nat Fake.NLP "" "<s>" (initial 0)).
  reflexivity.
Defined.

Lemma token_line_fields_witness :
  split tab_char (token_line (mkToken "casas" "NOUN" "casa"))
  = ["casas"; "NOUN"; "casa"].
Proof.
  apply (token_line_fields (mkToken "casas" "NOUN" "casa")); reflexivity.
Defined.

(* ================================================================= *)
(** * Further properties of [main] *)

Lemma readlines_of_nil (content : string) :
  readlines_of content = [] <-> content = "".
Proof.
  split; [|intros ->; reflexivity].
  destruct content as [|c s]; [reflexivity|].
  cbn [readlines_of]. destruct (Ascii.eqb c nl_char); [discriminate|].
  destruct (readlines_of s); discriminate.
Qed.

(** The last piece of a split is what follows the last separator. *)
Lemma last_split_append (c : ascii) (a b : string) :
  last_item (split c (a ++ String c b)) = last_item (split c b).
Proof.
  induction a as [|x a IH].
  - cbn [append split]. rewrite Ascii.eqb_refl.
    pose proof (split_not_nil c b).
    destruct (split c b); [contradiction | reflexivity].
  - cbn [append split].
    pose proof (length_split c (a ++ String c b)) as L.
    rewrite count_char_append in L. cbn [count_char] in L.
    rewrite Ascii.eqb_refl in L.
    destruct (split c (a ++ String c b)) as [|p [|q ps]] eqn:E;
      cbn [length] in L; try lia.
    destruct (Ascii.eqb x c); rewrite <- IH; reflexivity.
Qed.

Section MainMore.

Variable PS : Type.
Variable NLP : PS -> string -> Doc * PS.

Implicit Types (st : State PS) (filename : string).

Lemma doc_step_rejected filename (doc : Document) st :
  accepted_name filename = false ->
  doc_step NLP filename doc st = (Raise IndexError, st).
Proof.
  intros R. unfold doc_step, bind at 1. rewrite print_header_cases. cbv zeta.
  unfold accepted_name in R. now rewrite R.
Qed.

Lemma doc_loop_rejected filename (docs : list Document) st :
  accepted_name filename = false -> docs <> [] ->
  for_each docs (doc_step NLP filename) st = (Raise IndexError, st).
Proof.
  intros R NE. destruct docs as [|d docs]; [contradiction|].
  cbn [for_each]. unfold bind at 1. now rewrite doc_step_rejected.
Qed.

Lemma accepted_name_le filename :
  accepted_name filename = true -> 2 <= count_char "_" (take 10 filename).
Proof. unfold accepted_name. apply Nat.leb_le. Qed.

(** With a name that [print_header] accepts, the loop prints one text
    block per document. *)
Lemma doc_loop_shape filename (docs : list Document) :
  accepted_name filename = true ->
  forall st,
  exists (parts : list (list (list Token) * list (list Token))) evs ps',
    for_each docs (doc_step NLP filename) st =
      (Ok tt,
       advance st
         (flat_map (fun p => text_block filename (fst p) (snd p)) parts)
         evs ps')
    /\ length parts = length docs
    /\ forallb is_nlp_event evs = true.
Proof.
  intros A. apply accepted_name_le in A.
  induction docs as [|d docs IH]; intros st.
  - exists [], [], (nlp_state st). cbn [for_each flat_map]. unfold ret.
    rewrite advance_nothing. auto.
  - cbn [for_each]. unfold bind at 1.
    destruct (doc_step_run PS NLP filename d st A) as (h & s & evs & ps' & -> & N).
    destruct (IH (advance st (text_block filename h s) evs ps'))
      as (parts & evs2 & ps2 & -> & L & N2).
    exists ((h, s) :: parts), (evs ++ evs2)%list, ps2.
    rewrite advance_advance, forallb_app, N, N2. cbn [flat_map fst snd length].
    auto.
Qed.

(** The state in which the loop of [main] starts when the file decodes. *)
Lemma main_selected (filepath content : string) (file : File)
    (docs : list Document) (ps : PS) :
  selected file = Some content ->
  create_document_list (readlines_of content) = Ok docs ->
  exists lg h,
    main NLP filepath file (initial ps) =
      for_each docs (doc_step NLP (last_item (split "/" filepath)))
        (mkState [] [] (lg ++ [EvSegment]) ps (Some h)
                 (Some (readlines_of content)) (Some docs))
    /\ forallb is_file_event lg = true.
Proof.
  intros S E. destruct file as [u c]. unfold selected in S. cbn in S.
  destruct u as [cu|].
  - injection S as ->.
    exists [EvOpen h0; EvClose h0], h0.
    rewrite (main_primary PS NLP filepath content c docs ps E). auto.
  - subst c.
    exists [EvOpen h0; EvOpen h1; EvRelease h0; EvClose h1], h1.
    rewrite (main_fallback PS NLP filepath content docs ps E). auto.
Qed.

Lemma selected_none (file : File) :
  selected file = None -> file = mkFile None None.
Proof.
  destruct file as [[u|] [c|]]; unfold selected; cbn; congruence.
Qed.

Lemma documents_nonempty (content : string) (docs : list Document) :
  content <> "" ->
  create_document_list (readlines_of content) = Ok docs -> docs <> [].
Proof.
  intros NE E ->.
  destruct (create_document_list_total (readlines_of content)) as (docs & E' & L).
  rewrite E in E'. injection E' as <-.
  assert (NL : readlines_of content <> [])
    by (intros Z; apply readlines_of_nil in Z; contradiction).
  pose proof (boundary_flags_last _ NL). cbn [length] in L. lia.
Qed.

Lemma main_nothing_at_path (filepath : string) (ps : PS) :
  main NLP filepath nothing_at_path (initial ps) =
    (Raise (UnboundLocalError "input_doc"), initial ps).
Proof. reflexivity. Qed.

(** X7. The ways in which [main] ends, for every path, for everything
    the file system may hold at it, and for every pipeline that returns
    on each call. It returns when the file decodes and either is empty
    or has a name that [print_header] accepts; it ends on [IndexError]
    when the file decodes, is not empty and has another name; it ends on
    [UnboundLocalError] for [lines] when the file decodes under neither
    encoding, and on [UnboundLocalError] for [input_doc] when nothing can
    be opened at the path. In no case does it write to the error stream
    or end through [sys.exit]. *)
Theorem main_outcomes (filepath : string) (target : Target) (ps : PS) :
  let run := main NLP filepath target (initial ps) in
  stderr (snd run) = []
  /\ (forall code, fst run <> Raise (SystemExit code))
  /\ fst run =
       match target with
       | nothing_at_path => Raise (UnboundLocalError "input_doc")
       | at_path file =>
           match selected file with
           | None => Raise (UnboundLocalError "lines")
           | Some content =>
               if String.eqb content ""
                  || accepted_name (last_item (split "/" filepath))
               then Ok tt
               else Raise IndexError
           end
       end.
Proof.
  cbv zeta.
  assert (G : stderr (snd (main NLP filepath target (initial ps))) = []
           /\ fst (main NLP filepath target (initial ps)) =
                match target with
                | nothing_at_path => Raise (UnboundLocalError "input_doc")
                | at_path file =>
                    match selected file with
                    | None => Raise (UnboundLocalError "lines")
                    | Some content =>
                        if String.eqb content ""
                           || accepted_name (last_item (split "/" filepath))
                        then Ok tt
                        else Raise IndexError
                    end
                end).
  { destruct target as [file|]; [|rewrite main_nothing_at_path; split; reflexivity].
    destruct (selected file) as [content|] eqn:S.
    - destruct (create_document_list_total (readlines_of content))
        as (docs & E & _).
      destruct (main_selected filepath content file docs ps S E)
        as (lg & h & -> & _).
      destruct (String.eqb_spec content "") as [->|NE].
      + cbn in E. injection E as <-. split; reflexivity.
      + cbn [orb].
        destruct (accepted_name (last_item (split "/" filepath))) eqn:A.
        * destruct (doc_loop_shape _ docs A
                      (mkState [] [] (lg ++ [EvSegment]) ps (Some h)
                         (Some (readlines_of content)) (Some docs)))
            as (parts & evs & ps' & -> & _ & _).
          split; reflexivity.
        * rewrite doc_loop_rejected;
            [split; reflexivity | exact A | now apply (documents_nonempty content)].
    - rewrite (selected_none file S), main_undecodable. split; reflexivity. }
  destruct G as [G1 G2]. split; [exact G1|]. split; [|exact G2].
  intros code. rewrite G2.
  destruct target as [file|]; [|discriminate].
  destruct (selected file); [|discriminate].
  destruct (_ || _); discriminate.
Qed.

(** X8. A file that decodes and is not empty, under a name that
    [print_header] does not accept: the file is read and segmented,
    then [main] ends on [IndexError] at the first document, with nothing
    printed and the pipeline never called. *)
Theorem main_rejected_name_prints_nothing (filepath content : string)
    (file : File) (ps : PS) :
  selected file = Some content -> content <> "" ->
  accepted_name (last_item (split "/" filepath)) = false ->
  let run := main NLP filepath file (initial ps) in
  fst run = Raise IndexError
  /\ stdout (snd run) = []
  /\ nlp_state (snd run) = ps
  /\ forallb (fun e => negb (is_nlp_event e)) (log (snd run)) = true
  /\ documents (snd run) = Some (match create_document_list (readlines_of content)
                                 with Ok docs => docs | Raise _ => [] end).
Proof.
  intros S NE A. cbv zeta.
  destruct (create_document_list_total (readlines_of content))
    as (docs & E & _).
  destruct (main_selected filepath content file docs ps S E)
    as (lg & h & -> & F).
  rewrite doc_loop_rejected;
    [| exact A | now apply (documents_nonempty content)].
  cbn [fst snd stdout nlp_state log documents]. rewrite E.
  repeat split.
  rewrite forallb_app. cbn [forallb is_nlp_event negb andb].
  rewrite andb_true_r.
  clear -F. induction lg as [|e lg IH]; [reflexivity|].
  cbn [forallb] in *. apply andb_prop in F as [Fe Fl].
  rewrite (IH Fl), andb_true_r. destruct e; try discriminate Fe; reflexivity.
Qed.

(** X9. An empty file that decodes: [main] returns with nothing
    printed, no document and the pipeline never called, whatever the
    name of the file. *)
Theorem main_empty_file (filepath : string) (file : File) (ps : PS) :
  selected file = Some "" ->
  let run := main NLP filepath file (initial ps) in
  fst run = Ok tt
  /\ stdout (snd run) = []
  /\ documents (snd run) = Some []
  /\ nlp_state (snd run) = ps.
Proof.
  intros S. cbv zeta.
  destruct (main_selected filepath "" file [] ps S eq_refl) as (lg & h & -> & _).
  repeat split.
Qed.

(** X10. A file that decodes, under a name that [print_header]
    accepts: the output is one text block per document of the
    segmenter, in order, each made of the header line, blocks under
    [<h1>], blocks under [<s>] and the closing line, and nothing else. *)
Theorem main_output_shape (filepath content : string) (file : File) (ps : PS) :
  selected file = Some content ->
  accepted_name (last_item (split "/" filepath)) = true ->
  let run := main NLP filepath file (initial ps) in
  let filename := last_item (split "/" filepath) in
  exists docs (parts : list (list (list Token) * list (list Token))),
    create_document_list (readlines_of content) = Ok docs
    /\ length parts = length docs
    /\ stdout (snd run) =
         flat_map (fun p =>
           (header_line filename
            :: flat_map (render "<h1>") (fst p)
            ++ flat_map (render "<s>") (snd p)
            ++ ["</text>"])%list) parts.
Proof.
  intros S A. cbv zeta.
  destruct (create_document_list_total (readlines_of content))
    as (docs & E & _).
  destruct (main_selected filepath content file docs ps S E)
    as (lg & h & -> & _).
  destruct (doc_loop_shape _ docs A
              (mkState [] [] (lg ++ [EvSegment]) ps (Some h)
                 (Some (readlines_of content)) (Some docs)))
    as (parts & evs & ps' & -> & L & _).
  exists docs, parts. repeat split; assumption.
Qed.

(** X11. When the file decodes, the log of the run is made of the
    events on the handles, then the start of the segmentation, then
    calls of the pipeline only: the file is read and cut into documents
    before the first call of the pipeline, and it is not touched
    afterwards. *)
Theorem main_reads_before_annotating (filepath content : string)
    (file : File) (ps : PS) :
  selected file = Some content ->
  exists lg evs,
    log (snd (main NLP filepath file (initial ps)))
      = (lg ++ EvSegment :: evs)%list
    /\ forallb is_file_event lg = true
    /\ forallb is_nlp_event evs = true.
Proof.
  intros S.
  destruct (create_document_list_total (readlines_of content))
    as (docs & E & _).
  destruct (main_selected filepath content file docs ps S E)
    as (lg & h & -> & F).
  destruct (doc_loop_any PS NLP (last_item (split "/" filepath)) docs
              (mkState [] [] (lg ++ [EvSegment]) ps (Some h)
                 (Some (readlines_of content)) (Some docs)))
    as (r & out & evs & ps' & -> & N).
  exists lg, evs. cbn [snd log advance]. rewrite <- app_assoc. auto.
Qed.

(** The loop of [main] reads the state only through the output and the
    state of the pipeline. *)
Lemma doc_loop_same filename (docs : list Document) :
  forall st1 st2,
  stdout st1 = stdout st2 -> nlp_state st1 = nlp_state st2 ->
  let r1 := for_each docs (doc_step NLP filename) st1 in
  let r2 := for_each docs (doc_step NLP filename) st2 in
  fst r1 = fst r2 /\ stdout (snd r1) = stdout (snd r2)
  /\ nlp_state (snd r1) = nlp_state (snd r2).
Proof.
  destruct (accepted_name filename) eqn:A.
  - pose proof (accepted_name_le _ A) as V.
    induction docs as [|d docs IH]; intros st1 st2 O P; cbv zeta.
    + cbn. auto.
    + cbn [for_each]. unfold bind.
      rewrite !doc_step_exact by exact V. cbv zeta.
      apply IH; cbn [stdout nlp_state advance]; rewrite ?O, ?P; reflexivity.
  - intros st1 st2 O P. cbv zeta. destruct docs as [|d docs].
    + cbn. auto.
    + rewrite !doc_loop_rejected by (exact A || discriminate). auto.
Qed.

(** X12. The run depends on the file only through the text that [main]
    ends up with: two files with the same selected text, whichever
    encoding gave it, lead to the same result and the same output. In
    particular the text read as UTF-8 is used whenever that read
    succeeds. *)
Theorem main_depends_on_selected_text (filepath : string) (f1 f2 : File)
    (ps : PS) :
  selected f1 = selected f2 ->
  fst (main NLP filepath f1 (initial ps)) = fst (main NLP filepath f2 (initial ps))
  /\ stdout (snd (main NLP filepath f1 (initial ps)))
     = stdout (snd (main NLP filepath f2 (initial ps))).
Proof.
  intros S. destruct (selected f1) as [content|] eqn:S1.
  - symmetry in S.
    destruct (create_document_list_total (readlines_of content))
      as (docs & E & _).
    destruct (main_selected filepath content f1 docs ps S1 E)
      as (lg1 & k1 & -> & _).
    destruct (main_selected filepath content f2 docs ps S E)
      as (lg2 & k2 & -> & _).
    destruct (doc_loop_same (last_item (split "/" filepath)) docs
                (mkState [] [] (lg1 ++ [EvSegment]) ps (Some k1)
                   (Some (readlines_of content)) (Some docs))
                (mkState [] [] (lg2 ++ [EvSegment]) ps (Some k2)
                   (Some (readlines_of content)) (Some docs))
                eq_refl eq_refl) as (R & O & _).
    split; assumption.
  - symmetry in S.
    rewrite (selected_none f1 S1), (selected_none f2 S). split; reflexivity.
Qed.

(** X13. The directory part of the path does not enter the run: when
    the file system holds the same thing at [dir/name] and at [name],
    where [name] holds no slash, the run on [dir/name] is the run on
    [name]; the printed id and date come from [name] alone. *)
Theorem main_ignores_directory (dir name : string) (target : Target)
    (st : State PS) :
  count_char "/" name = 0 ->
  main NLP (dir ++ "/" ++ name) target st = main NLP name target st.
Proof.
  intros Z. unfold main.
  change (dir ++ "/" ++ name) with (dir ++ String "/" name).
  rewrite last_split_append. reflexivity.
Qed.

(** C8. On every path of [main], every handle that was opened on the
    input file is released before the segmentation or any annotation
    starts, and no handle is open at the end of the run. When the read as
    UTF-8 succeeds the one handle is closed by [finally]; when it fails,
    the first handle is released as [input_doc] is bound to the second
    one, and the second is closed by [finally], whether the second read
    succeeds (the work then starts with no handle open) or fails (no work
    starts); when nothing can be opened, no handle exists. *)
Theorem handles_released_before_work (filepath : string) (target : Target)
    (ps : PS) :
  let lg := log (snd (main NLP filepath target (initial ps))) in
  open_handles lg [] = []
  /\ open_at_work lg [] =
       match target with
       | nothing_at_path => None
       | at_path file =>
           match selected file with
           | Some _ => Some []
           | None => None
           end
       end.
Proof.
  cbv zeta. destruct target as [file|];
    [|rewrite main_nothing_at_path; split; reflexivity].
  destruct (selected file) as [content|] eqn:S.
  - destruct (create_document_list_total (readlines_of content))
      as (docs & E & _).
    destruct file as [u c]. unfold selected in S. cbn in S.
    destruct u as [cu|].
    + injection S as ->.
      rewrite (main_primary PS NLP filepath content c docs ps E).
      destruct (doc_loop_any PS NLP (last_item (split "/" filepath)) docs
                  (mkState [] [] [EvOpen h0; EvClose h0; EvSegment] ps
                     (Some h0) (Some (readlines_of content)) (Some docs)))
        as (r & out & evs & ps' & -> & N).
      cbn [snd log advance]. split; [|reflexivity].
      now rewrite open_handles_app.
    + subst c.
      rewrite (main_fallback PS NLP filepath content docs ps E).
      destruct (doc_loop_any PS NLP (last_item (split "/" filepath)) docs
                  (mkState [] []
                     [EvOpen h0; EvOpen h1; EvRelease h0; EvClose h1; EvSegment]
                     ps (Some h1) (Some (readlines_of content)) (Some docs)))
        as (r & out & evs & ps' & -> & N).
      cbn [snd log advance]. split; [|reflexivity].
      now rewrite open_handles_app.
  - rewrite (selected_none file S), main_undecodable. split; reflexivity.
Qed.

End MainMore.

Lemma main_rejected_name_prints_nothing_witness :
  let run := main Fake.NLP "corpus/notes.txt" scenario_file (initial 0) in
  fst run = Raise IndexError
  /\ stdout (snd run) = []
  /\ nlp_state (snd run) = 0
  /\ forallb (fun e => negb (is_nlp_event e)) (log (snd run)) = true
  /\ documents (snd run)
     = Some (match create_document_list (readlines_of scenario_content)
             with Ok docs => docs | Raise _ => [] end).
Proof.
  apply (main_rejected_name_prints_nothing nat Fake.NLP "corpus/notes.txt"
           scenario_content scenario_file 0).
  - reflexivity.
  - discriminate.
  - reflexivity.
Defined.

Lemma main_empty_file_witness :
  let run := main Fake.NLP "notes.txt" (mkFile None (Some "")) (initial 0) in
  fst run = Ok tt
  /\ stdout (snd run) = []
  /\ documents (snd run) = Some []
  /\ nlp_state (snd run) = 0.
Proof.
  apply (main_empty_file nat Fake.NLP "notes.txt" (mkFile None (Some "")) 0).
  reflexivity.
Defined.

Lemma main_output_shape_witness :
  let run := main Fake.NLP scenario_path scenario_file (initial 0) in
  let filename := last_item (split "/" scenario_path) in
  exists docs (parts : list (list (list Token) * list (list Token))),
    create_document_list (readlines_of scenario_content) = Ok docs
    /\ length parts = length docs
    /\ stdout (snd run) =
         flat_map (fun p =>
           (header_line filename
            :: flat_map (render "<h1>") (fst p)
            ++ flat_map (render "<s>") (snd p)
            ++ ["</text>"])%list) parts.
Proof.
  apply (main_output_shape nat Fake.NLP scenario_path scenario_content
           scenario_file 0); reflexivity.
Defined.

Lemma main_reads_before_annotating_witness :
  exists lg evs,
    log (snd (main Fake.NLP scenario_path scenario_file (initial 0)))
      = (lg ++ EvSegment :: evs)%list
    /\ forallb is_file_event lg = true
    /\ forallb is_nlp_event evs = true.
Proof.
  apply (main_reads_before_annotating nat Fake.NLP scenario_path
           scenario_content scenario_file 0).
  reflexivity.
Defined.

Lemma main_depends_on_selected_text_witness :
  fst (main Fake.NLP scenario_path
         (mkFile (Some scenario_content) None) (initial 0))
  = fst (main Fake.NLP scenario_path
           (mkFile None (Some scenario_content)) (initial 0))
  /\ stdout (snd (main Fake.NLP scenario_path
                    (mkFile (Some scenario_content) None) (initial 0)))
     = stdout (snd (main Fake.NLP scenario_path
                      (mkFile None (Some scenario_content)) (initial 0))).
Proof.
  apply (main_depends_on_selected_text nat Fake.NLP scenario_path
           (mkFile (Some scenario_content) None)
           (mkFile None (Some scenario_content)) 0).
  reflexivity.
Defined.

Lemma main_ignores_directory_witness :
  main Fake.NLP ("corpus/2017" ++ "/" ++ "2017_11_03_example-text.txt")
       scenario_file (initial 0)
  = main Fake.NLP "2017_11_03_example-text.txt" scenario_file (initial 0).
Proof.
  apply (main_ignores_directory nat Fake.NLP "corpus/2017"
           "2017_11_03_example-text.txt" scenario_file (initial 0)).
  reflexivity.
Defined.
